(** * RISP v2 (Research Index & Stats Program): the citation engine of
    [RISPv2.py], embedded and verified.

    Python values are modelled as follows.
    - [int] is [Z] (unbounded).
    - [str] is [string]; its characters are the code points below 256.
    - [dict] is an association list in insertion order with unique keys
      ([Dict.wf]); [Dict.set] updates in place or appends, as CPython does.
    - Dictionary objects live in a heap addressed by locations, so that
      "the same object" and "a new object" are different things; the
      console and the files are part of the same [world].
    - Floating-point numbers and the texts of exception messages are not
      modelled: they are the operations of the class [Runtime].  Nor is
      the limit that CPython puts on the number of digits of a
      conversion between [int] and [str]. *)

From Stdlib Require Import ZArith List String Ascii Bool Lia.
From Stdlib Require Import Sorting.Sorted Sorting.Permutation.
From Stdlib Require Import DecimalString DecimalZ DecimalN DecimalPos.
From stdpp Require Import base gmap strings.
Import ListNotations.

Local Open Scope string_scope.
Local Open Scope Z_scope.
Local Open Scope list_scope.

(* Let [simpl] and [cbn] compute the concatenation of strings. *)
#[local] Arguments String.append !s1 s2 : simpl nomatch.

(* ================================================================== *)
(** * Python built-ins *)
(* ================================================================== *)

Module Py.

(** Exceptions that the modelled code can raise.  [BadLocation] is not a
    Python exception: it marks a location that the heap does not hold,
    which no Python program can produce. *)
Inductive exn : Type :=
| EOFError
| ValueError (what : string)
| KeyError (key : string)
| OSError (path : string)
| StatisticsError
| BadLocation.

(** ** Lists *)

(** [len(l)] *)
Definition len {A} (l : list A) : Z := Z.of_nat (List.length l).

(** [sum(l)] for a list of integers: a left fold from 0. *)
Definition sum (l : list Z) : Z := fold_left Z.add l 0.

(** [max(l)] and [min(l)]: [ValueError] on an empty list. *)
Definition max (l : list Z) : exn + Z :=
  match l with
  | [] => inl (ValueError "max")
  | x :: t => inr (fold_left Z.max t x)
  end.

Definition min (l : list Z) : exn + Z :=
  match l with
  | [] => inl (ValueError "min")
  | x :: t => inr (fold_left Z.min t x)
  end.

(** [enumerate(l, start)] *)
Fixpoint enumerate {A} (start : Z) (l : list A) : list (Z * A) :=
  match l with
  | [] => []
  | x :: t => (start, x) :: enumerate (start + 1) t
  end.

(** ** [sorted]

    [sorted(l, key=k, reverse=r)] is stable, also with [reverse=True]:
    elements whose keys are equal keep their original order.  The result
    of a stable sort is determined by the input, so it is modelled by
    stable insertion: [insert] puts [x] before the first element that
    does not have to precede it. *)
Section Sorted.
Context {A : Type} (before : A -> A -> bool).

Fixpoint insert (x : A) (l : list A) : list A :=
  match l with
  | [] => [x]
  | y :: t => if before x y then x :: y :: t else y :: insert x t
  end.

Definition isort (l : list A) : list A := fold_right insert [] l.
End Sorted.

Definition sorted {A K} (key : A -> K) (kleb : K -> K -> bool)
    (reverse : bool) (l : list A) : list A :=
  isort (fun a b => if reverse then kleb (key b) (key a)
                    else kleb (key a) (key b)) l.

(** ** Strings *)

(** The line feed. *)
Definition nl : string := String "010"%char EmptyString.

(** [c.isspace()] for a code point below 256: the ASCII white space, the
    separators FS, GS, RS and US, NEL and the no-break space. *)
Definition isspace (c : ascii) : bool :=
  let n := N_of_ascii c in
  ((9 <=? n) && (n <=? 13) || (28 <=? n) && (n <=? 32)
   || (n =? 133) || (n =? 160))%N.

Fixpoint lstrip (s : string) : string :=
  match s with
  | EmptyString => EmptyString
  | String c t => if isspace c then lstrip t else s
  end.

Fixpoint rstrip (s : string) : string :=
  match s with
  | EmptyString => EmptyString
  | String c t =>
      match rstrip t with
      | EmptyString => if isspace c then EmptyString else String c EmptyString
      | t' => String c t'
      end
  end.

(** [s.strip()] *)
Definition strip (s : string) : string := rstrip (lstrip s).

(** [c.lower()] for a code point below 256: the ASCII capitals and the
    Latin-1 capitals (all of 192..222 but the multiplication sign). *)
Definition lower_char (c : ascii) : ascii :=
  let n := N_of_ascii c in
  if ((65 <=? n) && (n <=? 90)
      || (192 <=? n) && (n <=? 222) && negb (n =? 215))%N
  then ascii_of_N (n + 32) else c.

Fixpoint lower (s : string) : string :=
  match s with
  | EmptyString => EmptyString
  | String c t => String (lower_char c) (lower t)
  end.

(** [c.isdigit()] for a code point below 256: the decimal digits and the
    superscripts two, three and one. *)
Definition isdigit_char (c : ascii) : bool :=
  let n := N_of_ascii c in
  ((48 <=? n) && (n <=? 57) || (n =? 178) || (n =? 179) || (n =? 185))%N.

Fixpoint all_chars (p : ascii -> bool) (s : string) : bool :=
  match s with
  | EmptyString => true
  | String c t => p c && all_chars p t
  end.

(** [s.isdigit()]: false on the empty string. *)
Definition isdigit (s : string) : bool :=
  match s with
  | EmptyString => false
  | _ => all_chars isdigit_char s
  end.

(** [c in s] for a one-character [c]. *)
Fixpoint contains (c : ascii) (s : string) : bool :=
  match s with
  | EmptyString => false
  | String c' t => Ascii.eqb c' c || contains c t
  end.

(** [s.split(c, 1)] when it has two parts: the text before the first [c]
    and the text after it. *)
Fixpoint split1 (c : ascii) (s : string) : option (string * string) :=
  match s with
  | EmptyString => None
  | String c' t =>
      if Ascii.eqb c' c then Some (EmptyString, t)
      else match split1 c t with
           | Some (a, b) => Some (String c' a, b)
           | None => None
           end
  end.

(** [str(n)] *)
Definition str (n : Z) : string := NilZero.string_of_int (Z.to_int n).

(** [int(s)] for a string [s] with [s.isdigit()]: the value of a string
    of decimal digits, [ValueError] when a superscript digit occurs. *)
Definition int (s : string) : exn + Z :=
  match NilZero.uint_of_string s with
  | Some d => inr (Z.of_uint d)
  | None => inl (ValueError s)
  end.

(** [s * n] *)
Definition repeat (s : string) (n : Z) : string :=
  Nat.iter (Z.to_nat n) (String.append s) EmptyString.

Definition slen (s : string) : Z := Z.of_nat (String.length s).

(** [s.ljust(w)], [s.rjust(w)] and [s.center(w)]: the formats [<w], [>w]
    and [str.center].  [center] puts the odd blank on the left when the
    width is odd too, as CPython does. *)
Definition ljust (w : Z) (s : string) : string :=
  s +:+ repeat " " (w - slen s).

Definition rjust (w : Z) (s : string) : string :=
  repeat " " (w - slen s) +:+ s.

Definition center (w : Z) (s : string) : string :=
  let marg := w - slen s in
  if marg <=? 0 then s
  else
    let left := marg / 2 + Z.land (Z.land marg w) 1 in
    repeat " " left +:+ s +:+ repeat " " (marg - left).

(** [sep.join(l)] *)
Fixpoint join (sep : string) (l : list string) : string :=
  match l with
  | [] => EmptyString
  | [s] => s
  | s :: t => s +:+ sep +:+ join sep t
  end.

(** The lines of a text file read in text mode, each with its line feed:
    a line ends at a line feed, at a carriage return or at the two
    together, and all three are read as a line feed. *)
Fixpoint readlines (text : string) : list string :=
  match text with
  | EmptyString => []
  | String c t =>
      if Ascii.eqb c "010" then nl :: readlines t
      else if Ascii.eqb c "013" then
        match t with
        | String c' t' => if Ascii.eqb c' "010" then nl :: readlines t'
                          else nl :: readlines t
        | EmptyString => [nl]
        end
      else match readlines t with
           | [] => [String c EmptyString]
           | l :: r => String c l :: r
           end
  end.

End Py.

(* ================================================================== *)
(** * Dictionaries *)
(* ================================================================== *)

Module Dict.
Section Operations.
Context {K V : Type} `{EqDecision K}.

Definition t : Type := list (K * V).

Definition keys (d : t) : list K := map fst d.
Definition values (d : t) : list V := map snd d.
Definition items (d : t) : list (K * V) := d.

(** The invariant of a dictionary: no key occurs twice. *)
Definition wf (d : t) : Prop := List.NoDup (keys d).

(** [not d] *)
Definition is_empty (d : t) : bool :=
  match d with [] => true | _ => false end.

(** [d[k]] *)
Fixpoint get (k : K) (d : t) : option V :=
  match d with
  | [] => None
  | (k', v) :: r => if decide (k = k') then Some v else get k r
  end.

(** [k in d] *)
Definition mem (k : K) (d : t) : bool :=
  match get k d with Some _ => true | None => false end.

(** [d[k] = v]: an existing key keeps its position. *)
Fixpoint set (k : K) (v : V) (d : t) : t :=
  match d with
  | [] => [(k, v)]
  | (k', v') :: r =>
      if decide (k = k') then (k, v) :: r else (k', v') :: set k v r
  end.

(** [del d[k]] *)
Fixpoint remove (k : K) (d : t) : t :=
  match d with
  | [] => []
  | (k', v') :: r =>
      if decide (k = k') then r else (k', v') :: remove k r
  end.

(** [dict(pairs)] and dictionary comprehensions: the pairs are stored
    one after the other. *)
Definition of_items (l : list (K * V)) : t :=
  fold_left (fun d kv => set (fst kv) (snd kv) d) l [].
End Operations.
Arguments t : clear implicits.
End Dict.

(** A paper collection: paper name to citation count. *)
Abbreviation papers_t := (Dict.t string Z).

(* ================================================================== *)
(** * Core statistics (lines 131-155 of RISPv2.py) *)
(* ================================================================== *)

(** [h_index]: the loop keeps the last rank [i] whose count is at least
    [i]; it does not stop at the first rank that fails. *)
Definition h_index (papers : papers_t) : Z :=
  let citations := Py.sorted (fun c : Z => c) Z.leb true (Dict.values papers) in
  fold_left (fun h ic => if snd ic >=? fst ic then fst ic else h)
            (Py.enumerate 1 citations) 0.

(** [sum(1 for c in papers.values() if c >= t)] *)
Definition count_at_least (papers : papers_t) (t : Z) : Z :=
  Py.sum (map (fun _ => 1) (List.filter (fun c => c >=? t) (Dict.values papers))).

Definition i10_index (papers : papers_t) : Z := count_at_least papers 10.

Definition count_above_thresholds (papers : papers_t) (thresholds : list Z)
  : Dict.t Z Z :=
  Dict.of_items (map (fun t => (t, count_at_least papers t)) thresholds).

(* ================================================================== *)
(** * The world: heap, console and files *)
(* ================================================================== *)

Abbreviation loc := positive.

Record world : Type := World {
  heap : gmap loc papers_t;     (* the dictionary objects *)
  stdin : list string;          (* the lines still to be read *)
  stdout : list string;         (* what was written, oldest first *)
  files : gmap string string;   (* the text files, by path *)
  readonly : gset string        (* paths that cannot be opened for writing *)
}.

Definition with_heap (h : gmap loc papers_t) (w : world) : world :=
  World h (stdin w) (stdout w) (files w) (readonly w).
Definition with_stdin (i : list string) (w : world) : world :=
  World (heap w) i (stdout w) (files w) (readonly w).
Definition with_stdout (o : list string) (w : world) : world :=
  World (heap w) (stdin w) o (files w) (readonly w).
Definition with_files (f : gmap string string) (w : world) : world :=
  World (heap w) (stdin w) (stdout w) f (readonly w).

(** A computation: it ends with a value or with an exception, and in
    both cases leaves a world behind. *)
Definition py (A : Type) : Type := world -> (Py.exn + A) * world.

Definition ret {A} (a : A) : py A := fun w => (inr a, w).
Definition raise {A} (e : Py.exn) : py A := fun w => (inl e, w).
Definition lift {A} (r : Py.exn + A) : py A := fun w => (r, w).

Definition bind {A B} (m : py A) (k : A -> py B) : py B :=
  fun w =>
    match m w with
    | (inl e, w') => (inl e, w')
    | (inr a, w') => k a w'
    end.

(** [try: m except Exception as e: handler(e)] *)
Definition try_except {A} (m : py A) (handler : Py.exn -> py A) : py A :=
  fun w =>
    match m w with
    | (inl e, w') => handler e w'
    | (inr a, w') => (inr a, w')
    end.

Declare Scope py_scope.
Delimit Scope py_scope with py.
Notation "x <- m ;; k" := (bind m (fun x => k))
  (at level 100, m at next level, right associativity) : py_scope.
Notation "m ;; k" := (bind m (fun _ => k))
  (at level 100, right associativity) : py_scope.
Local Open Scope py_scope.

(** [for x in l: body(x)] *)
Fixpoint for_each {A} (l : list A) (body : A -> py unit) : py unit :=
  match l with
  | [] => ret tt
  | x :: t => body x ;; for_each t body
  end.

(** ** The console *)

(** [print(s)] *)
Definition print (s : string) : py unit :=
  fun w => (inr tt, with_stdout (stdout w ++ [s +:+ Py.nl]) w).

(** [input(prompt)]: the prompt is written, a line is read without its
    line feed; [EOFError] at the end of the input. *)
Definition input (prompt : string) : py string :=
  fun w =>
    let w' := with_stdout (stdout w ++ [prompt]) w in
    match stdin w with
    | [] => (inl Py.EOFError, w')
    | line :: rest => (inr line, with_stdin rest w')
    end.

(** ** The heap *)

Definition deref (r : loc) : py papers_t :=
  fun w =>
    match heap w !! r with
    | Some d => (inr d, w)
    | None => (inl Py.BadLocation, w)
    end.

Definition store (r : loc) (d : papers_t) : py unit :=
  fun w => (inr tt, with_heap (<[r := d]> (heap w)) w).

(** A new dictionary object. *)
Definition alloc (d : papers_t) : py loc :=
  fun w =>
    let r := fresh (dom (heap w)) in
    (inr r, with_heap (<[r := d]> (heap w)) w).

(** [papers[k] = v] *)
Definition setitem (r : loc) (k : string) (v : Z) : py unit :=
  d <- deref r ;; store r (Dict.set k v d).

(** [del papers[k]] *)
Definition delitem (r : loc) (k : string) : py unit :=
  d <- deref r ;;
  if Dict.mem k d then store r (Dict.remove k d) else raise (Py.KeyError k).

(** [papers.pop(k)] *)
Definition pop (r : loc) (k : string) : py Z :=
  d <- deref r ;;
  match Dict.get k d with
  | Some v => store r (Dict.remove k d) ;; ret v
  | None => raise (Py.KeyError k)
  end.

(** ** Files *)

(** [open(path, 'w')]: the file is created or emptied. *)
Definition open_w (path : string) : py unit :=
  fun w =>
    if bool_decide (path ∈ readonly w) then (inl (Py.OSError path), w)
    else (inr tt, with_files (<[path := EmptyString]> (files w)) w).

(** [f.write(s)] on a file opened by [open_w]. *)
Definition write (path : string) (s : string) : py unit :=
  fun w =>
    match files w !! path with
    | Some text => (inr tt, with_files (<[path := text +:+ s]> (files w)) w)
    | None => (inl (Py.OSError path), w)
    end.

(* ================================================================== *)
(** * Sorting (lines 158-166) *)
(* ================================================================== *)

(** [get_sorted_papers]: a new dictionary for the two known modes, the
    argument itself for every other mode. *)
Definition get_sorted_papers (papers : loc) (mode : string) : py loc :=
  if String.eqb mode "citations" then
    d <- deref papers ;;
    alloc (Dict.of_items (Py.sorted snd Z.leb true (Dict.items d)))
  else if String.eqb mode "name" then
    d <- deref papers ;;
    alloc (Dict.of_items (Py.sorted fst String.leb false (Dict.items d)))
  else ret papers.

(* ================================================================== *)
(** * Console helpers (lines 14-64) *)
(* ================================================================== *)

Definition print_divider (char : string) (length : Z) : py unit :=
  print (Py.repeat char length).

Definition str_opt (o : option Z) : string :=
  match o with Some n => Py.str n | None => "None" end.

(** [get_int]: one turn of the loop reads one line, so the loop ends by
    the time the input does ([input] raises [EOFError] then); the turns
    are counted by [fuel]. *)
Fixpoint get_int_loop (fuel : nat) (prompt : string)
    (min_val max_val : option Z) : py Z :=
  match fuel with
  | O => raise Py.EOFError
  | S fuel =>
      line <- input prompt ;;
      let val := Py.strip line in
      if Py.isdigit val then
        val <- lift (Py.int val) ;;
        if match min_val with Some m => val <? m | None => false end
           || match max_val with Some m => val >? m | None => false end
        then
          print ("Value must be between " +:+ str_opt min_val +:+ " and "
                 +:+ str_opt max_val +:+ ".") ;;
          get_int_loop fuel prompt min_val max_val
        else ret val
      else
        print "Invalid input. Enter a positive integer." ;;
        get_int_loop fuel prompt min_val max_val
  end.

Definition get_int (prompt : string) (min_val max_val : option Z) : py Z :=
  fun w => get_int_loop (S (List.length (stdin w))) prompt min_val max_val w.

Definition table_header : string :=
  Py.ljust 5 "S.No" +:+ " " +:+ Py.ljust 35 "Paper Name" +:+ " "
  +:+ Py.rjust 10 "Citations".

Definition table_row (i : Z) (name : string) (cit : Z) : string :=
  Py.ljust 5 (Py.str i) +:+ " " +:+ Py.ljust 35 name +:+ " "
  +:+ Py.rjust 10 (Py.str cit).

Definition print_paper_list (papers : loc) (title : string) : py unit :=
  d <- deref papers ;;
  if Dict.is_empty d then
    print (Py.nl +:+ title +:+ ": No papers to display." +:+ Py.nl)
  else
    print_divider "=" 60 ;;
    print (Py.center 60 title) ;;
    print_divider "=" 60 ;;
    print table_header ;;
    print_divider "-" 60 ;;
    for_each (Py.enumerate 1 (Dict.items d))
      (fun row => print (table_row (fst row) (fst (snd row)) (snd (snd row)))) ;;
    print_divider "=" 60 ;;
    print EmptyString.

(* ================================================================== *)
(** * Editing (lines 235-263) *)
(* ================================================================== *)

Definition edit_paper (papers : loc) : py unit :=
  d <- deref papers ;;
  if Dict.is_empty d then print ("No papers to edit." +:+ Py.nl)
  else
    print_paper_list papers "Current Papers" ;;
    line <- input "Enter the paper name to edit/delete: " ;;
    let name := Py.strip line in
    d <- deref papers ;;
    if negb (Dict.mem name d) then print ("Paper not found." +:+ Py.nl)
    else
      line <- input "Enter 'edit', 'rename', or 'delete': " ;;
      let action := Py.lower (Py.strip line) in
      if String.eqb action "edit" then
        new_cit <- get_int ("Enter new citation count for '" +:+ name +:+ "': ")
                           (Some 0) None ;;
        setitem papers name new_cit ;;
        print ("Updated successfully." +:+ Py.nl)
      else if String.eqb action "rename" then
        line <- input "Enter new name: " ;;
        let new_name := Py.strip line in
        if negb (String.eqb new_name EmptyString) then
          v <- pop papers name ;;
          setitem papers new_name v ;;
          print ("Renamed successfully." +:+ Py.nl)
        else ret tt
      else if String.eqb action "delete" then
        delitem papers name ;;
        print ("Deleted successfully." +:+ Py.nl)
      else print ("Invalid action." +:+ Py.nl).

(* ================================================================== *)
(** * What is not modelled: floats and exception texts *)
(* ================================================================== *)

(** The numbers that [statistics] returns and the arithmetic of the
    report on them (an [int] or a binary64 [float], with CPython's
    rounding), and the text [str(e)] of an exception. *)
Class Runtime : Type := {
  num : Type;
  num_of_int : Z -> num;          (* an int result *)
  true_div : Z -> Z -> num;       (* [a / b] on ints, as a float *)
  sqrt_frac : Z -> Z -> num;      (* the square root of the fraction [a/b] *)
  num_add : num -> num -> num;    (* [x + y] *)
  num_sub : num -> num -> num;    (* [x - y] *)
  int_mul : Z -> num -> num;      (* [n * x] *)
  int_gt : Z -> num -> bool;      (* [n > x] *)
  int_lt : Z -> num -> bool;      (* [n < x] *)
  round2 : num -> num;            (* [round(x, 2)] *)
  str_num : num -> string;        (* [str(x)] *)
  exn_text : Py.exn -> string     (* [str(e)] *)
}.

Section Program.
Context `{Runtime}.

(* ================================================================== *)
(** * The [statistics] module on lists of ints *)
(* ================================================================== *)

(** [mean]: the exact fraction [sum/n], an int when it is whole. *)
Definition mean (data : list Z) : Py.exn + num :=
  match data with
  | [] => inl Py.StatisticsError
  | _ =>
      let total := Py.sum data in
      let n := Py.len data in
      inr (if total mod n =? 0 then num_of_int (total / n)
           else true_div total n)
  end.

(** [median]: the middle value, or half the sum of the two middle ones. *)
Definition median (data : list Z) : Py.exn + num :=
  let data := Py.sorted (fun c : Z => c) Z.leb false data in
  let n := List.length data in
  if Nat.eqb n 0 then inl Py.StatisticsError
  else if Nat.odd n then inr (num_of_int (nth (Nat.div n 2) data 0))
  else
    let i := Nat.div n 2 in
    inr (true_div (nth (i - 1) data 0 + nth i data 0) 2).

(** [stdev]: the square root of the sample variance
    [(n * sum(x^2) - sum(x)^2) / (n * (n - 1))]; at least two values. *)
Definition stdev (data : list Z) : Py.exn + num :=
  let n := Py.len data in
  if n <? 2 then inl Py.StatisticsError
  else
    let sx := Py.sum data in
    let sxx := Py.sum (map (fun x => x * x) data) in
    inr (sqrt_frac (n * sxx - sx * sx) (n * (n - 1))).

(* ================================================================== *)
(** * Text files (lines 92-124) *)
(* ================================================================== *)

Definition save_papers_to_txt (papers : loc) (filename : string) : py unit :=
  try_except
    (open_w filename ;;
     d <- deref papers ;;
     for_each (Dict.items d)
       (fun nc => write filename (fst nc +:+ "|" +:+ Py.str (snd nc) +:+ Py.nl)) ;;
     print ("Papers saved to '" +:+ filename +:+ "' successfully." +:+ Py.nl))
    (fun e => print ("Error saving file: " +:+ exn_text e +:+ Py.nl)).

(** One turn of the loop of [load_papers_from_txt]. *)
Definition load_line (papers : loc) (line : string) : py unit :=
  if Py.contains "|" line then
    match Py.split1 "|" (Py.strip line) with
    | Some (name, cit) =>
        if Py.isdigit cit then
          n <- lift (Py.int cit) ;;
          setitem papers name n
        else ret tt
    | None => raise (Py.ValueError line)
    end
  else ret tt.

Definition load_papers_from_txt (filename : string) : py loc :=
  papers <- alloc [] ;;
  fun w =>
    match files w !! filename with
    | None => (print ("File does not exist." +:+ Py.nl) ;; ret papers) w
    | Some text =>
        (try_except
           (for_each (Py.readlines text) (load_line papers) ;;
            print ("Papers loaded from '" +:+ filename +:+ "' successfully."
                   +:+ Py.nl))
           (fun e => print ("Error loading file: " +:+ exn_text e +:+ Py.nl)) ;;
         ret papers) w
    end.

(* ================================================================== *)
(** * The summary report (lines 169-228) *)
(* ================================================================== *)

Definition outliers : Type := list (string * Z) * list (string * Z).

(** Lines 196-204: the high and the low outliers. *)
Definition detect_outliers (d : papers_t) : Py.exn + outliers :=
  let values := Dict.values d in
  if Py.len values >? 1 then
    match stdev values, mean values with
    | inr std_dev, inr mean_val =>
        inr (fold_left
               (fun (acc : outliers) (nc : string * Z) =>
                  let (name, cit) := nc in
                  if int_gt cit (num_add mean_val (int_mul 2 std_dev))
                  then (fst acc ++ [(name, cit)], snd acc)
                  else if int_lt cit (num_sub mean_val (int_mul 2 std_dev))
                  then (fst acc, snd acc ++ [(name, cit)])
                  else acc)
               (Dict.items d) ([], []))
    | inl e, _ => inl e
    | _, inl e => inl e
    end
  else inr ([], []).

Definition or_none (l : list string) : string :=
  match l with
  | [] => "None"
  | _ => Py.join ", " l
  end.

Definition show_outlier (nc : string * Z) : string :=
  fst nc +:+ "(" +:+ Py.str (snd nc) +:+ ")".

(** The report of a collection that is not empty. *)
Definition report_body (papers : loc) (d : papers_t) : py string :=
  let values := Dict.values d in
  let total_papers := Py.len values in
  let total_citations := Py.sum values in
  m <- lift (mean values) ;;
  let avg_citations := round2 m in
  median_citations <- lift (median values) ;;
  max_cit <- lift (Py.max values) ;;
  min_cit <- lift (Py.min values) ;;
  let h_idx := h_index d in
  let i10_idx := i10_index d in
  let range_cit := max_cit - min_cit in
  let zero_cit := map fst (List.filter (fun nc => snd nc =? 0) (Dict.items d)) in
  out <- lift (detect_outliers d) ;;
  sorted_papers <- get_sorted_papers papers "citations" ;;
  sd <- deref sorted_papers ;;
  ret (Py.join Py.nl
    ([ Py.center 60 "RESEARCH PAPER STATISTICS";
       Py.repeat "=" 60;
       "Total Papers       : " +:+ Py.str total_papers;
       "Total Citations    : " +:+ Py.str total_citations;
       "h-index            : " +:+ Py.str h_idx;
       "i10-index          : " +:+ Py.str i10_idx;
       "Average Citations  : " +:+ str_num avg_citations;
       "Median Citations   : " +:+ str_num median_citations;
       "Max Citations      : " +:+ Py.str max_cit;
       "Min Citations      : " +:+ Py.str min_cit;
       "Range              : " +:+ Py.str range_cit;
       "Zero-Citation Papers: " +:+ or_none zero_cit;
       "High Outliers (>2σ): " +:+ or_none (map show_outlier (fst out));
       "Low Outliers (<2σ) : " +:+ or_none (map show_outlier (snd out));
       Py.nl +:+ "All Papers Descending by Citations:";
       table_header;
       Py.repeat "-" 50 ]
     ++ map (fun row => table_row (fst row) (fst (snd row)) (snd (snd row)))
            (Py.enumerate 1 (Dict.items sd)))).

Definition generate_summary_report (papers : loc) : py string :=
  d <- deref papers ;;
  if Dict.is_empty d then ret ("No papers available." +:+ Py.nl)
  else report_body papers d.

End Program.

(* ================================================================== *)
(** * A runtime to run the model with *)
(* ================================================================== *)

(** Decimal fixed-point numbers with six places: [x] stands for
    [x / 10^6].  This is not CPython's arithmetic; it makes the model
    executable, and shows that [Runtime] asks for nothing that cannot be
    had. *)
Definition fixed_one : Z := 1000000.

Definition fixed_str (x : Z) : string :=
  let frac := Py.str (Z.abs x mod fixed_one) in
  (if x <? 0 then "-" else EmptyString)
  +:+ Py.str (Z.abs x / fixed_one) +:+ "."
  +:+ Py.repeat "0" (6 - Py.slen frac) +:+ frac.

Definition fixed_exn_text (e : Py.exn) : string :=
  match e with
  | Py.EOFError => "EOF when reading a line"
  | Py.ValueError what => "invalid value: " +:+ what
  | Py.KeyError key => key
  | Py.OSError path => "cannot open: " +:+ path
  | Py.StatisticsError => "not enough data points"
  | Py.BadLocation => "bad location"
  end.

Definition fixed_runtime : Runtime := {|
  num := Z;
  num_of_int := fun n => n * fixed_one;
  true_div := fun a b => a * fixed_one / b;
  sqrt_frac := fun a b => Z.sqrt (a * fixed_one * fixed_one / b);
  num_add := Z.add;
  num_sub := Z.sub;
  int_mul := Z.mul;
  int_gt := fun n x => n * fixed_one >? x;
  int_lt := fun n x => n * fixed_one <? x;
  round2 := fun x => (x + 5000) / 10000 * 10000;
  str_num := fixed_str;
  exn_text := fixed_exn_text
|}.

(* ================================================================== *)
(** * The vocabulary of the statements *)
(* ================================================================== *)

(** The number of papers with [t] citations or more. *)
Definition papers_with_at_least (papers : papers_t) (t : Z) : Z :=
  Py.len (List.filter (fun nc => t <=? snd nc) (Dict.items papers)).

(** Number of entries of [l] that are at least [t]. *)
Definition at_least (t : Z) (l : list Z) : Z :=
  Py.len (List.filter (fun c => c >=? t) l).

(** A list in descending order. *)
Definition descending : list Z -> Prop := StronglySorted (fun a b => b <= a).

(** The loop of [h_index], started at rank [i] with candidate [h]. *)
Definition h_loop (i h : Z) (l : list Z) : Z :=
  fold_left (fun h ic => if snd ic >=? fst ic then fst ic else h)
            (Py.enumerate i l) h.

(** The keys of a dictionary comprehension: every value of [l] at its
    first occurrence. *)
Fixpoint first_occurrences (seen l : list Z) : list Z :=
  match l with
  | [] => []
  | t :: r =>
      if in_dec Z.eq_dec t seen then first_occurrences seen r
      else t :: first_occurrences (seen ++ [t]) r
  end.

(** The order that a mode asks for, and the entries that it cannot tell
    apart. *)
Definition precedes (mode : string) (a b : string * Z) : bool :=
  if String.eqb mode "citations" then snd b <=? snd a
  else String.leb (fst a) (fst b).

Definition same_key (mode : string) (a b : string * Z) : bool :=
  if String.eqb mode "citations" then snd a =? snd b
  else String.eqb (fst a) (fst b).

(** What [get_sorted_papers] stores for a mode that it knows. *)
Definition sorted_items (mode : string) (d : papers_t) : papers_t :=
  Py.isort (precedes mode) d.


(** The ten decimal digits. *)
Definition decimal (c : ascii) : bool :=
  (48 <=? N_of_ascii c)%N && (N_of_ascii c <=? 57)%N.

(** Neither a line feed nor a carriage return. *)
Definition inline (c : ascii) : bool :=
  negb (Ascii.eqb c "010") && negb (Ascii.eqb c "013").

(** The line that [save_papers_to_txt] writes for an entry, and the text
    of the whole file. *)
Definition entry_line (nc : string * Z) : string :=
  fst nc +:+ "|" +:+ Py.str (snd nc) +:+ Py.nl.

Definition saved_text (d : papers_t) : string :=
  fold_right (fun nc text => entry_line nc +:+ text) EmptyString d.


(** A world with one collection, at location 1, and the lines that the
    user will type. *)
Definition world_of (d : papers_t) (typed : list string) : world :=
  World {[ 1%positive := d ]} typed [] ∅ ∅.

(** The collection of the examples. *)
Definition two_papers : papers_t := [("Paper A", 12); ("B", 0)].

(** A line that [get_int] turns down and asks again: not a digit string,
    or a number outside the bounds. *)
Definition out_of_bounds (min_val max_val : option Z) (val : Z) : bool :=
  match min_val with Some m => val <? m | None => false end
  || match max_val with Some m => val >? m | None => false end.


(** What [get_int] writes for a line that it turns down. *)
Definition rejection_lines (prompt : string) (min_val max_val : option Z)
    (line : string) : list string :=
  if Py.isdigit (Py.strip line) then
    [ prompt;
      ("Value must be between " +:+ str_opt min_val +:+ " and "
       +:+ str_opt max_val +:+ ".") +:+ Py.nl ]
  else [ prompt; "Invalid input. Enter a positive integer." +:+ Py.nl ].


(** A name as [load_papers_from_txt] can produce it, and as the file
    format keeps it: without the separator, without a line break, and not
    starting with white space.  It may be empty. *)
Definition clean_name (name : string) : Prop :=
  Py.contains "|" name = false
  /\ Py.contains "010" name = false
  /\ Py.contains "013" name = false
  /\ Py.lstrip name = name.

(** A collection as the file format keeps it. *)
Definition storable (d : papers_t) : Prop :=
  Dict.wf d /\ forall name cit, In (name, cit) d -> clean_name name /\ 0 <= cit.


(* ================================================================== *)
(** * More built-ins *)
(* ================================================================== *)

(** [s.split(c)] for a one-character [c]: the parts between the
    occurrences of [c]; one part, the empty one, for the empty string. *)
Fixpoint split_on (c : ascii) (s : string) : list string :=
  match s with
  | EmptyString => [EmptyString]
  | String c' t =>
      if Ascii.eqb c' c then EmptyString :: split_on c t
      else match split_on c t with
           | [] => [String c' EmptyString]
           | part :: parts => String c' part :: parts
           end
  end.

(** [needle in hay] for strings. *)
Fixpoint occurs_in (needle hay : string) : bool :=
  String.prefix needle hay
  || match hay with
     | EmptyString => false
     | String _ t => occurs_in needle t
     end.

(** [l[:n]]: a negative [n] counts from the end. *)
Definition take {A} (n : Z) (l : list A) : list A :=
  if n <? 0 then firstn (List.length l - Z.to_nat (- n)) l
  else firstn (Z.to_nat n) l.

(** [d.update(other)]: the entries of [other] are stored one after the
    other. *)
Definition update (d other : papers_t) : papers_t :=
  fold_left (fun d kv => Dict.set (fst kv) (snd kv) d) (Dict.items other) d.

(* ================================================================== *)
(** * Questions to the user (lines 37-46 and 71-89) *)
(* ================================================================== *)

(** [get_yes_no]: as in [get_int], one turn of the loop reads one line. *)
Fixpoint get_yes_no_loop (fuel : nat) (prompt : string) : py string :=
  match fuel with
  | O => raise Py.EOFError
  | S fuel =>
      line <- input prompt ;;
      let ans := Py.lower (Py.strip line) in
      if String.eqb ans "y" || String.eqb ans "n" then ret ans
      else
        print "Invalid input. Enter 'y' or 'n'." ;;
        get_yes_no_loop fuel prompt
  end.

Definition get_yes_no (prompt : string) : py string :=
  fun w => get_yes_no_loop (S (List.length (stdin w))) prompt w.

(** The name under which [get_paper_input] stores the paper number
    [count]. *)
Definition paper_name (count : Z) (name : string) : string :=
  if String.eqb name EmptyString then "Paper " +:+ Py.str count else name.

(** The loop of [get_paper_input]: one turn reads a name, and a count
    unless the name is 'done'. *)
Fixpoint get_paper_input_loop (fuel : nat) (papers : loc) (count : Z) : py unit :=
  match fuel with
  | O => raise Py.EOFError
  | S fuel =>
      line <- input ("Paper name [" +:+ Py.str count +:+ "]: ") ;;
      let name := Py.strip line in
      if String.eqb (Py.lower name) "done" then ret tt
      else
        let name := paper_name count name in
        citations <- get_int ("Citations for '" +:+ name +:+ "': ") (Some 0) None ;;
        setitem papers name citations ;;
        get_paper_input_loop fuel papers (count + 1)
  end.

Definition get_paper_input : py loc :=
  papers <- alloc [] ;;
  print (Py.nl +:+ "Enter paper names and citations. Type 'done' when finished."
         +:+ Py.nl) ;;
  (fun w => get_paper_input_loop (S (List.length (stdin w))) papers 1 w) ;;
  ret papers.

(* ================================================================== *)
(** * The index menu (lines 270-291) *)
(* ================================================================== *)

Definition index_menu (papers : loc) : py unit :=
  print_divider "=" 60 ;;
  d <- deref papers ;;
  print ("Total Papers: " +:+ Py.str (Py.len d) +:+ " | Total Citations: "
         +:+ Py.str (Py.sum (Dict.values d)) +:+ Py.nl) ;;
  if Dict.is_empty d then print ("No papers entered." +:+ Py.nl)
  else
    print "Select Index to Calculate:" ;;
    print "1: h-index" ;;
    print "2: i10-index" ;;
    print "3: Both" ;;
    choice <- get_int "Enter 1, 2, or 3: " (Some 1) (Some 3) ;;
    if choice =? 1 then
      d <- deref papers ;;
      print ("h-index: " +:+ Py.str (h_index d) +:+ Py.nl)
    else if choice =? 2 then
      d <- deref papers ;;
      print ("i10-index: " +:+ Py.str (i10_index d) +:+ Py.nl)
    else if choice =? 3 then
      d <- deref papers ;;
      print ("h-index: " +:+ Py.str (h_index d)) ;;
      print ("i10-index: " +:+ Py.str (i10_index d) +:+ Py.nl)
    else ret tt.

(* ================================================================== *)
(** * The statistics menu (lines 298-395) and the program (402-417) *)
(* ================================================================== *)

(** What the menu shows at every turn. *)
Definition menu_lines : list string :=
  [ Py.repeat "=" 60;
    Py.center 60 "STATISTICS & FILTERS MENU";
    Py.repeat "=" 60;
    " 1: Max Citations         2: Min Citations          3: Max & Min";
    " 4: Average               5: Median                6: Zero-Citation Papers";
    " 7: Papers Above Thresholds (Custom)";
    " 8: Citation Range Filter";
    " 9: Top N Most Cited Papers";
    "10: Full Summary Report";
    "11: Export Citation List";
    "12: Export Summary Report";
    "13: Edit/Delete Papers";
    "14: Load Citations From File";
    "15: Save Citations To File";
    "16: Detect Outliers";
    "17: Exit" +:+ Py.nl ].

(** [[int(t.strip()) for t in tokens if t.strip().isdigit()]]: the
    tokens are converted from left to right. *)
Fixpoint thresholds_of (tokens : list string) : Py.exn + list Z :=
  match tokens with
  | [] => inr []
  | t :: rest =>
      if Py.isdigit (Py.strip t) then
        match Py.int (Py.strip t) with
        | inl e => inl e
        | inr v =>
            match thresholds_of rest with
            | inl e => inl e
            | inr l => inr (v :: l)
            end
        end
      else thresholds_of rest
  end.

Section Menus.
Context `{Runtime}.

(** The [match] of [statistics_menu]: the result tells whether the loop
    is left by [break]. *)
Definition statistics_case (choice : Z) (papers : loc) : py bool :=
  if choice =? 1 then
    d <- deref papers ;;
    m <- lift (Py.max (Dict.values d)) ;;
    print (Py.nl +:+ "Max Citations: " +:+ Py.str m +:+ Py.nl) ;;
    ret false
  else if choice =? 2 then
    d <- deref papers ;;
    m <- lift (Py.min (Dict.values d)) ;;
    print (Py.nl +:+ "Min Citations: " +:+ Py.str m +:+ Py.nl) ;;
    ret false
  else if choice =? 3 then
    d <- deref papers ;;
    mx <- lift (Py.max (Dict.values d)) ;;
    mn <- lift (Py.min (Dict.values d)) ;;
    print (Py.nl +:+ "Max: " +:+ Py.str mx +:+ " | Min: " +:+ Py.str mn +:+ Py.nl) ;;
    ret false
  else if choice =? 4 then
    d <- deref papers ;;
    m <- lift (mean (Dict.values d)) ;;
    print (Py.nl +:+ "Average Citations: " +:+ str_num (round2 m) +:+ Py.nl) ;;
    ret false
  else if choice =? 5 then
    d <- deref papers ;;
    m <- lift (median (Dict.values d)) ;;
    print (Py.nl +:+ "Median Citations: " +:+ str_num m +:+ Py.nl) ;;
    ret false
  else if choice =? 6 then
    d <- deref papers ;;
    let zero_cits := map fst (List.filter (fun nc => snd nc =? 0) (Dict.items d)) in
    print (Py.nl +:+ "Zero-Citation Papers: " +:+ or_none zero_cits +:+ Py.nl) ;;
    ret false
  else if choice =? 7 then
    thr_input <- input (Py.nl +:+ "Enter thresholds separated by commas (e.g., 10,25,50): ") ;;
    thresholds <- lift (thresholds_of (split_on "," thr_input)) ;;
    d <- deref papers ;;
    let counts := count_above_thresholds d thresholds in
    print (Py.nl +:+ "Counts above thresholds:") ;;
    for_each (Dict.items counts)
      (fun tc => print (">= " +:+ Py.rjust 3 (Py.str (fst tc)) +:+ ": "
                        +:+ Py.str (snd tc))) ;;
    print EmptyString ;;
    ret false
  else if choice =? 8 then
    low <- get_int (Py.nl +:+ "Enter minimum citation: ") (Some 0) None ;;
    high <- get_int "Enter maximum citation: " (Some low) None ;;
    d <- deref papers ;;
    filtered <- alloc (Dict.of_items
                         (List.filter (fun nc => (low <=? snd nc) && (snd nc <=? high))
                                      (Dict.items d))) ;;
    print_paper_list filtered
      ("Papers with citations " +:+ Py.str low +:+ "-" +:+ Py.str high) ;;
    ret false
  else if choice =? 9 then
    N <- get_int (Py.nl +:+ "Enter N for Top N papers: ") (Some 1) None ;;
    sorted_papers <- get_sorted_papers papers "citations" ;;
    sd <- deref sorted_papers ;;
    top_n <- alloc (Dict.of_items (take N (Dict.items sd))) ;;
    print_paper_list top_n ("Top " +:+ Py.str N +:+ " Most Cited Papers") ;;
    ret false
  else if choice =? 10 then
    report <- generate_summary_report papers ;;
    print report ;;
    print EmptyString ;;
    ret false
  else if choice =? 11 then
    ans <- get_yes_no (Py.nl +:+ "Do you want to save the citation list to TXT? (y/n): ") ;;
    (if String.eqb ans "y" then
       line <- input "Enter filename (e.g., list.txt): " ;;
       save_papers_to_txt papers (Py.strip line)
     else ret tt) ;;
    ret false
  else if choice =? 12 then
    ans <- get_yes_no (Py.nl +:+ "Do you want to save the summary report to TXT? (y/n): ") ;;
    (if String.eqb ans "y" then
       line <- input "Enter filename (e.g., summary.txt): " ;;
       let filename := Py.strip line in
       try_except
         (open_w filename ;;
          report <- generate_summary_report papers ;;
          write filename report ;;
          print ("Summary report saved to '" +:+ filename +:+ "' successfully."
                 +:+ Py.nl))
         (fun e => print ("Error saving summary: " +:+ exn_text e +:+ Py.nl))
     else ret tt) ;;
    ret false
  else if choice =? 13 then
    edit_paper papers ;;
    ret false
  else if choice =? 14 then
    line <- input (Py.nl +:+ "Enter filename to load citations from (e.g., list.txt): ") ;;
    loaded <- load_papers_from_txt (Py.strip line) ;;
    other <- deref loaded ;;
    d <- deref papers ;;
    store papers (update d other) ;;
    ret false
  else if choice =? 15 then
    line <- input (Py.nl +:+ "Enter filename to save citations (e.g., list.txt): ") ;;
    save_papers_to_txt papers (Py.strip line) ;;
    ret false
  else if choice =? 16 then
    report <- generate_summary_report papers ;;
    print (Py.nl +:+ "Outlier Information:") ;;
    for_each (split_on "010" report)
      (fun line => if occurs_in "Outliers" line then print line else ret tt) ;;
    print EmptyString ;;
    ret false
  else if choice =? 17 then
    print ("Exiting statistics menu..." +:+ Py.nl) ;;
    ret true
  else ret false.

(** [statistics_menu]: one turn of the loop reads at least the choice. *)
Fixpoint statistics_menu_loop (fuel : nat) (papers : loc) : py unit :=
  match fuel with
  | O => raise Py.EOFError
  | S fuel =>
      for_each menu_lines print ;;
      choice <- get_int "Enter choice (1-17): " (Some 1) (Some 17) ;;
      left <- statistics_case choice papers ;;
      if left : bool then ret tt
      else if negb (choice =? 17) then
        cont <- get_yes_no "Continue in statistics menu? (y/n): " ;;
        if String.eqb cont "n" then print ("Exiting statistics menu..." +:+ Py.nl)
        else statistics_menu_loop fuel papers
      else statistics_menu_loop fuel papers
  end.

Definition statistics_menu (papers : loc) : py unit :=
  fun w => statistics_menu_loop (S (List.length (stdin w))) papers w.

Definition RI_v2 : py unit :=
  print_divider "=" 60 ;;
  print (Py.center 60 "RESEARCH INDEX & STATS PROGRAM - VERSION 2") ;;
  print_divider "=" 60 ;;
  papers <- get_paper_input ;;
  d <- deref papers ;;
  if Dict.is_empty d then
    print (Py.nl +:+ "No papers entered. Exiting program." +:+ Py.nl)
  else
    index_menu papers ;;
    statistics_menu papers.

End Menus.

(* ================================================================== *)
(** * What a computation leaves as it was *)
(* ================================================================== *)

(** [keeps R m]: however [m] ends, the world after it is related by [R]
    to the world before it. *)
Definition keeps {A} (R : world -> world -> Prop) (m : py A) : Prop :=
  forall w r w', m w = (r, w') -> R w w'.

(** No line is put back into the input. *)
Definition input_left (w w' : world) : Prop :=
  (List.length (stdin w') <= List.length (stdin w))%nat.

Definition same_files (w w' : world) : Prop := files w' = files w.

Definition same_heap (w w' : world) : Prop := heap w' = heap w.

(** The object at a location is as it was. *)
Definition same_object (p : loc) (w w' : world) : Prop :=
  forall d, heap w !! p = Some d -> heap w' !! p = Some d.

(** A relation that the console does not break: writing keeps it, and
    so does reading a line. *)
Class Frame (R : world -> world -> Prop) : Prop := {
  frame_refl : forall w, R w w;
  frame_trans : forall a b c, R a b -> R b c -> R a c;
  frame_print : forall o w, R w (with_stdout o w);
  frame_read : forall line rest w, stdin w = line :: rest -> R w (with_stdin rest w)
}.

(** A relation that a new object does not break. *)
Class OverAlloc (R : world -> world -> Prop) : Prop :=
  over_alloc : forall d w, R w (with_heap (<[fresh (dom (heap w)) := d]> (heap w)) w).

(** A relation that does not look at the heap, or at the files. *)
Class OverHeap (R : world -> world -> Prop) : Prop :=
  over_heap : forall h w, R w (with_heap h w).

Class OverFiles (R : world -> world -> Prop) : Prop :=
  over_files : forall f w, R w (with_files f w).

(** A line that [get_yes_no] turns down. *)
Definition answer_rejected (line : string) : bool :=
  negb (String.eqb (Py.lower (Py.strip line)) "y"
        || String.eqb (Py.lower (Py.strip line)) "n").





(** A collection as [get_paper_input] builds it: distinct names, none of
    them empty or 'done' in any spelling, and no negative count. *)
Definition entered (d : papers_t) : Prop :=
  Dict.wf d
  /\ forall name c, In (name, c) d ->
       0 <= c /\ name <> EmptyString /\ Py.lower name <> "done".
(* ================================================================== *)
(** * Facts about dictionaries *)
(* ================================================================== *)

Section DictFacts.
Context {K V : Type} `{EqDecision K}.
Implicit Types (d : Dict.t K V) (k : K) (v : V).

Lemma get_set_eq k v d : Dict.get k (Dict.set k v d) = Some v.
Proof.
  induction d as [|[k' v'] d IH]; simpl.
  - now rewrite decide_True.
  - destruct (decide (k = k')); simpl.
    + now rewrite decide_True.
    + now rewrite decide_False.
Qed.

Lemma get_set_ne k k' v d :
  k <> k' -> Dict.get k' (Dict.set k v d) = Dict.get k' d.
Proof.
  intros Hne. induction d as [|[k0 v0] d IH]; simpl.
  - rewrite decide_False; [reflexivity | congruence].
  - destruct (decide (k = k0)) as [->|]; simpl.
    + rewrite !decide_False; [reflexivity | congruence | congruence].
    + destruct (decide (k' = k0)); [reflexivity | exact IH].
Qed.

Lemma get_None k d : Dict.get k d = None <-> ~ In k (Dict.keys d).
Proof.
  induction d as [|[k' v'] d IH]; simpl; [tauto|].
  destruct (decide (k = k')) as [->|Hne].
  - split; [discriminate | tauto].
  - rewrite IH. split; [intros Hn [E|Hi]; [congruence | tauto] | tauto].
Qed.

Lemma get_In k v d : Dict.get k d = Some v -> In (k, v) d.
Proof.
  induction d as [|[k' v'] d IH]; simpl; [discriminate|].
  destruct (decide (k = k')) as [->|Hne]; [intros [= ->]; now left | auto].
Qed.


Lemma mem_In k d : Dict.mem k d = true <-> In k (Dict.keys d).
Proof.
  unfold Dict.mem. pose proof (get_None k d) as Hn.
  destruct (Dict.get k d).
  - split; [intros _|reflexivity].
    destruct (in_dec (fun a b => decide (a = b)) k (Dict.keys d)) as [Hi|Hi];
      [exact Hi|]. apply Hn in Hi. discriminate.
  - split; [discriminate|]. intros Hi. now apply Hn in Hi.
Qed.

(** Storing under a new key appends. *)
Lemma set_new k v d : ~ In k (Dict.keys d) -> Dict.set k v d = d ++ [(k, v)].
Proof.
  induction d as [|[k' v'] d IH]; simpl; [reflexivity|].
  intros Hn. rewrite decide_False by (intros ->; tauto).
  rewrite IH by tauto. reflexivity.
Qed.

Lemma keys_set k v d :
  Dict.keys (Dict.set k v d) =
  if Dict.mem k d then Dict.keys d else Dict.keys d ++ [k].
Proof.
  unfold Dict.mem. induction d as [|[k' v'] d IH]; simpl; [reflexivity|].
  destruct (decide (k = k')) as [->|Hne]; simpl; [reflexivity|].
  rewrite IH. now destruct (Dict.get k d).
Qed.

Lemma of_items_from (l : list (K * V)) d :
  List.NoDup (Dict.keys (d ++ l)) ->
  fold_left (fun d kv => Dict.set (fst kv) (snd kv) d) l d = d ++ l.
Proof.
  revert d. induction l as [|[k v] l IH]; intros d Hnd; simpl.
  - now rewrite app_nil_r.
  - rewrite set_new.
    + rewrite IH; rewrite <- app_assoc; [reflexivity | exact Hnd].
    + unfold Dict.keys in *. rewrite map_app in Hnd. simpl in Hnd.
      apply List.NoDup_remove_2 in Hnd. intros Hi. apply Hnd.
      apply in_or_app. now left.
Qed.

(** [dict(pairs)] of pairs with distinct keys is the pairs, in order. *)
Lemma of_items_wf (l : list (K * V)) : List.NoDup (Dict.keys l) -> Dict.of_items l = l.
Proof. intros Hnd. unfold Dict.of_items. now rewrite of_items_from. Qed.

Lemma get_remove_ne k k' d :
  k <> k' -> Dict.get k' (Dict.remove k d) = Dict.get k' d.
Proof.
  intros Hne. induction d as [|[k0 v0] d IH]; simpl; [reflexivity|].
  destruct (decide (k = k0)) as [->|]; simpl.
  - rewrite decide_False; [reflexivity | congruence].
  - destruct (decide (k' = k0)); [reflexivity | exact IH].
Qed.
End DictFacts.

Lemma first_occurrences_nodup seen l :
  List.NoDup l -> (forall t, In t l -> ~ In t seen) -> first_occurrences seen l = l.
Proof.
  revert seen. induction l as [|t l IH]; intros seen Hnd Hs; simpl; [reflexivity|].
  apply List.NoDup_cons_iff in Hnd as [Hni Hnd].
  destruct (in_dec Z.eq_dec t seen) as [Hi|_].
  - exfalso. apply (Hs t); [now left | exact Hi].
  - f_equal. apply IH; [exact Hnd|].
    intros t' Ht' Hin. apply in_app_or in Hin as [Hin|[<-|[]]].
    + apply (Hs t'); [now right | exact Hin].
    + contradiction.
Qed.

Section Comprehension.
Context (f : Z -> Z).
Let step (d : Dict.t Z Z) (kv : Z * Z) := Dict.set (fst kv) (snd kv) d.
Let pairs (l : list Z) := map (fun t => (t, f t)) l.

Lemma comprehension_get (l : list Z) (d : Dict.t Z Z) (k : Z) :
  Dict.get k (fold_left step (pairs l) d) =
  if in_dec Z.eq_dec k l then Some (f k) else Dict.get k d.
Proof.
  revert d. induction l as [|t l IH]; intros d; [reflexivity|].
  cbn [pairs map fold_left]. fold (pairs l). rewrite IH. unfold step.
  cbn [fst snd].
  destruct (in_dec Z.eq_dec k l) as [Hi|Hn];
    destruct (in_dec Z.eq_dec k (t :: l)) as [Hi'|Hn']; simpl in *;
    try reflexivity; try tauto.
  - destruct Hi' as [->|Hi']; [apply get_set_eq | tauto].
  - apply get_set_ne. tauto.
Qed.

Lemma comprehension_keys (l : list Z) (d : Dict.t Z Z) :
  Dict.keys (fold_left step (pairs l) d) =
  Dict.keys d ++ first_occurrences (Dict.keys d) l.
Proof.
  revert d. induction l as [|t l IH]; intros d; simpl.
  - now rewrite app_nil_r.
  - fold (pairs l). rewrite IH. unfold step. cbn [fst snd].
    rewrite keys_set.
    destruct (in_dec Z.eq_dec t (Dict.keys d)) as [Hi|Hn].
    + apply mem_In in Hi. now rewrite Hi.
    + destruct (Dict.mem t d) eqn:E; [apply mem_In in E; contradiction|].
      now rewrite <- app_assoc.
Qed.
End Comprehension.
(* ================================================================== *)
(** * Facts about the built-ins *)
(* ================================================================== *)

(** The string functions on the values that CPython gives. *)
Example center_examples :
  Py.center 6 "abc" = " abc  " /\ Py.center 7 "ab" = "   ab  "
  /\ Py.center 5 "ab" = "  ab " /\ Py.center 7 "abcd" = "  abcd "
  /\ Py.center 2 "abc" = "abc".
Proof. repeat split; reflexivity. Qed.

Example format_examples :
  Py.ljust 5 (Py.str 5) = "5    " /\ Py.rjust 10 (Py.str (-3)) = "        -3"
  /\ Py.ljust 2 "abc" = "abc" /\ Py.repeat "=" 3 = "===" /\ Py.repeat "=" (-2) = EmptyString.
Proof. repeat split; reflexivity. Qed.

Example strip_examples :
  Py.strip "  a b  " = "a b" /\ Py.strip ("x|5" +:+ Py.nl) = "x|5"
  /\ Py.strip "   " = EmptyString /\ Py.lower "ReName" = "rename".
Proof. repeat split; reflexivity. Qed.

Example split_examples :
  Py.split1 "|" "a|b|c" = Some ("a", "b|c") /\ Py.split1 "|" "|5" = Some (EmptyString, "5")
  /\ Py.split1 "|" "abc" = None /\ Py.isdigit "007" = true
  /\ Py.isdigit EmptyString = false /\ Py.isdigit "-1" = false
  /\ Py.int "007" = inr 7.
Proof. repeat split; reflexivity. Qed.

Example readlines_example :
  Py.readlines ("a" +:+ String "013" "b" +:+ String "013" Py.nl +:+ "c" +:+ Py.nl +:+ Py.nl +:+ "d")
  = ["a" +:+ Py.nl; "b" +:+ Py.nl; "c" +:+ Py.nl; Py.nl; "d"].
Proof. reflexivity. Qed.

Lemma sum_from (l : list Z) (a : Z) : fold_left Z.add l a = a + Py.sum l.
Proof.
  unfold Py.sum. revert a.
  induction l as [|x l IH]; intros a; cbn [fold_left]; [lia|].
  rewrite (IH (a + x)), (IH (0 + x)). lia.
Qed.

Lemma sum_cons (x : Z) (l : list Z) : Py.sum (x :: l) = x + Py.sum l.
Proof. unfold Py.sum at 1. cbn [fold_left]. rewrite sum_from. lia. Qed.

Lemma sum_ones {A} (l : list A) : Py.sum (map (fun _ => 1) l) = Py.len l.
Proof.
  unfold Py.len. induction l as [|x l IH]; [reflexivity|].
  simpl map. rewrite sum_cons, IH. simpl List.length. lia.
Qed.

Section SortedFacts.
Context {A : Type} (before : A -> A -> bool).
Let R (a b : A) : Prop := before a b = true.

Hypothesis before_total : forall a b, before a b = true \/ before b a = true.

Lemma insert_perm x l : Permutation (Py.insert before x l) (x :: l).
Proof.
  induction l as [|y l IH]; simpl; [reflexivity|].
  destruct (before x y); [reflexivity|].
  rewrite IH. apply perm_swap.
Qed.

Lemma isort_perm l : Permutation (Py.isort before l) l.
Proof.
  induction l as [|x l IH]; simpl; [reflexivity|].
  rewrite insert_perm. now constructor.
Qed.

Lemma insert_sorted x l : Sorted R l -> Sorted R (Py.insert before x l).
Proof.
  induction 1 as [|y l Hl IH Hy]; simpl.
  - repeat constructor.
  - destruct (before x y) eqn:E.
    + constructor; [now constructor | now constructor].
    + constructor; [exact IH|].
      destruct (before_total x y) as [Hxy|Hyx]; [congruence|].
      destruct Hy as [|z l Hz]; simpl.
      * now constructor.
      * destruct (before x z); now constructor.
Qed.

Lemma isort_sorted l : Sorted R (Py.isort before l).
Proof.
  induction l as [|x l IH]; simpl; [constructor | now apply insert_sorted].
Qed.

(** Sorting a sorted list changes nothing. *)
Lemma isort_id l : Sorted R l -> Py.isort before l = l.
Proof.
  induction 1 as [|y l Hl IH Hy]; simpl; [reflexivity|].
  rewrite IH. destruct Hy as [|z l Hz]; simpl; [reflexivity|].
  unfold R in Hz. now rewrite Hz.
Qed.

Lemma isort_idem l : Py.isort before (Py.isort before l) = Py.isort before l.
Proof. apply isort_id, isort_sorted. Qed.
End SortedFacts.

(* ================================================================== *)
(** * The h-index *)
(* ================================================================== *)

Lemma count_at_least_len papers t :
  count_at_least papers t = at_least t (Dict.values papers).
Proof. unfold count_at_least, at_least. apply sum_ones. Qed.

Lemma count_at_least_spec papers t :
  count_at_least papers t = papers_with_at_least papers t.
Proof.
  rewrite count_at_least_len.
  unfold at_least, papers_with_at_least, Py.len, Dict.items, Dict.values. f_equal.
  induction papers as [|[n c] p IH]; [reflexivity|]. simpl.
  rewrite Z.geb_leb. destruct (t <=? c); simpl; now rewrite IH.
Qed.

Lemma at_least_perm t l l' : Permutation l l' -> at_least t l = at_least t l'.
Proof.
  intros H. unfold at_least, Py.len. f_equal.
  induction H; simpl; try destruct (_ >=? _); simpl; try congruence.
  destruct (x >=? t); reflexivity.
Qed.

Lemma at_least_cons t c l :
  at_least t (c :: l) = (if c >=? t then 1 else 0) + at_least t l.
Proof.
  unfold at_least, Py.len. simpl. destruct (c >=? t); simpl List.length; lia.
Qed.

Lemma at_least_nonneg t l : 0 <= at_least t l.
Proof. unfold at_least, Py.len. lia. Qed.

Lemma at_least_le_len t l : at_least t l <= Py.len l.
Proof.
  unfold at_least, Py.len. pose proof (filter_length_le (fun c => c >=? t) l). lia.
Qed.

Lemma at_least_none t l : Forall (fun c => c < t) l -> at_least t l = 0.
Proof.
  induction 1 as [|c l Hc _ IH]; [reflexivity|].
  rewrite at_least_cons, IH. destruct (Z.geb_spec c t); lia.
Qed.

Lemma sorted_values_descending (l : list Z) :
  descending (Py.sorted (fun c : Z => c) Z.leb true l).
Proof.
  unfold descending. apply Sorted_StronglySorted.
  - intros a b c Hab Hbc. lia.
  - eapply Sorted_ind with
      (P := fun s => Sorted (fun a b : Z => b <= a) s).
    3: { apply (isort_sorted (fun a b : Z => Z.leb b a)). intros a b.
         destruct (Z.leb_spec b a), (Z.leb_spec a b); auto; lia. }
    + constructor.
    + intros a s _ IH Hd. constructor; [exact IH|].
      destruct Hd; constructor. now apply Z.leb_le.
Qed.

(** In a list in descending order the entries that are at least [v]
    form a prefix. *)
Lemma descending_prefix v s (p : nat) :
  descending s -> (p < List.length s)%nat -> v <= nth p s 0 ->
  Z.of_nat p + 1 <= at_least v s.
Proof.
  intros Hs. revert p. induction Hs as [|a s Hs IH Ha]; intros p Hp Hv.
  - simpl in Hp. lia.
  - rewrite at_least_cons. destruct p as [|p]; simpl in Hv.
    + destruct (Z.geb_spec a v); [|lia]. pose proof (at_least_nonneg v s). lia.
    + simpl in Hp. assert (Hps : (p < List.length s)%nat) by lia.
      specialize (IH p Hps Hv).
      assert (nth p s 0 <= a).
      { rewrite List.Forall_forall in Ha. apply Ha. now apply nth_In. }
      destruct (Z.geb_spec a v); lia.
Qed.

Lemma descending_count v s (p : nat) :
  descending s -> Z.of_nat p + 1 <= at_least v s ->
  (p < List.length s)%nat /\ v <= nth p s 0.
Proof.
  intros Hs. revert p. induction Hs as [|a s Hs IH Ha]; intros p Hc.
  - unfold at_least, Py.len in Hc. simpl in Hc. lia.
  - rewrite at_least_cons in Hc. destruct p as [|p]; simpl.
    + split; [lia|]. destruct (Z.geb_spec a v); [lia|].
      assert (at_least v s = 0); [|lia].
      apply at_least_none. eapply List.Forall_impl; [|exact Ha].
      intros c Hc'. simpl in Hc'. lia.
    + destruct (IH p) as [Hp Hv]; [destruct (a >=? v); lia|].
      split; [lia|exact Hv].
Qed.

Lemma h_loop_keeps i h l : h < i -> h <= h_loop i h l.
Proof.
  unfold h_loop. revert i h. induction l as [|c l IH]; intros i h Hh; simpl; [lia|].
  destruct (c >=? i).
  - apply Z.le_trans with i; [lia|]. apply IH. lia.
  - apply IH. lia.
Qed.

Lemma h_loop_result i h l :
  h_loop i h l = h \/
  exists p : nat, (p < List.length l)%nat /\ i + Z.of_nat p <= nth p l 0 /\
                  h_loop i h l = i + Z.of_nat p.
Proof.
  unfold h_loop. revert i h. induction l as [|c l IH]; intros i h; simpl; [now left|].
  destruct (IH (i + 1) (if c >=? i then i else h)) as [E|(p & Hp & Hn & E)].
  - destruct (Z.geb_spec c i).
    + right. exists 0%nat. simpl. rewrite E. repeat split; lia.
    + left. exact E.
  - right. exists (S p). simpl. rewrite E. repeat split; lia.
Qed.

Lemma h_loop_upper i h l (p : nat) :
  h < i -> (p < List.length l)%nat -> i + Z.of_nat p <= nth p l 0 ->
  i + Z.of_nat p <= h_loop i h l.
Proof.
  revert i h p. induction l as [|c l IH]; intros i h p Hh Hp Hn; simpl in Hp; [lia|].
  change (h_loop i h (c :: l))
    with (h_loop (i + 1) (if c >=? i then i else h) l).
  destruct p as [|p]; simpl in Hn.
  - destruct (Z.geb_spec c i); [|lia].
    replace (i + Z.of_nat 0) with i by lia. apply h_loop_keeps. lia.
  - replace (i + Z.of_nat (S p)) with (i + 1 + Z.of_nat p) by lia.
    apply IH; [destruct (c >=? i); lia | lia | lia].
Qed.

(** The result of [h_index] has the defining property of the h-index and
    is the largest number that has it. *)
Lemma h_index_characterised (papers : papers_t) :
  h_index papers <= count_at_least papers (h_index papers) /\
  (forall h : Z, h <= count_at_least papers h -> h <= h_index papers).
Proof.
  set (s := Py.sorted (fun c : Z => c) Z.leb true (Dict.values papers)).
  assert (Hd : descending s) by apply sorted_values_descending.
  assert (Hc : forall t, count_at_least papers t = at_least t s).
  { intros t. rewrite count_at_least_len. symmetry.
    apply at_least_perm, isort_perm. }
  change (h_index papers) with (h_loop 1 0 s).
  split.
  - rewrite Hc. destruct (h_loop_result 1 0 s) as [E|(p & Hp & Hn & E)].
    + rewrite E. apply at_least_nonneg.
    + rewrite E. pose proof (descending_prefix (1 + Z.of_nat p) s p Hd Hp Hn). lia.
  - intros h Hh. rewrite Hc in Hh.
    destruct (Z.le_gt_cases h 0) as [Hneg|Hpos].
    + pose proof (h_loop_keeps 1 0 s). lia.
    + destruct (descending_count h s (Z.to_nat (h - 1)) Hd) as [Hp Hn]; [lia|].
      pose proof (h_loop_upper 1 0 s (Z.to_nat (h - 1))). lia.
Qed.

(** C1. [h_index] returns the largest [h] such that at least [h] papers
    have [h] citations or more: the result has the property, every [h]
    with the property is at most the result, and the empty collection
    has h-index 0. *)
Theorem h_index_is_max (papers : papers_t) :
  h_index papers <= papers_with_at_least papers (h_index papers) /\
  (forall h : Z, h <= papers_with_at_least papers h -> h <= h_index papers) /\
  h_index [] = 0.
Proof.
  destruct (h_index_characterised papers) as [Hp Hmax].
  repeat split.
  - now rewrite <- count_at_least_spec.
  - intros h Hh. apply Hmax. now rewrite count_at_least_spec.
Qed.

(* ================================================================== *)
(** * Counting above thresholds *)
(* ================================================================== *)

(** C2. [count_above_thresholds] maps every threshold of the sequence to
    the number of papers with at least that many citations and holds no
    other key; its keys are the thresholds in the order given, each at
    its first occurrence (so the thresholds themselves when none is
    repeated); thresholds [5, 15] over X:20, Y:10, Z:2 give 5:2, 15:1. *)
Theorem count_above_thresholds_spec (papers : papers_t) (thresholds : list Z) :
  let r := count_above_thresholds papers thresholds in
  (forall t, In t thresholds ->
     Dict.get t r = Some (papers_with_at_least papers t)) /\
  (forall t, ~ In t thresholds -> Dict.get t r = None) /\
  Dict.keys r = first_occurrences [] thresholds /\
  (List.NoDup thresholds -> Dict.keys r = thresholds) /\
  count_above_thresholds [("X", 20); ("Y", 10); ("Z", 2)] [5; 15]
    = [(5, 2); (15, 1)].
Proof.
  intros r. subst r. unfold count_above_thresholds, Dict.of_items.
  pose proof (count_at_least_spec papers) as Hcount.
  repeat split.
  - intros t Ht. rewrite (comprehension_get (count_at_least papers)).
    destruct (in_dec Z.eq_dec t thresholds); [now rewrite Hcount | contradiction].
  - intros t Ht. rewrite (comprehension_get (count_at_least papers)).
    destruct (in_dec Z.eq_dec t thresholds); [contradiction | reflexivity].
  - now rewrite (comprehension_keys (count_at_least papers)).
  - intros Hnd. rewrite (comprehension_keys (count_at_least papers)). simpl.
    apply first_occurrences_nodup; [exact Hnd | tauto].
Qed.

(** C2 at a concrete input: two distinct thresholds. *)
Lemma count_above_thresholds_witness :
  Dict.keys (count_above_thresholds [("X", 20); ("Y", 10)] [5; 15]) = [5; 15].
Proof.
  apply (count_above_thresholds_spec [("X", 20); ("Y", 10)] [5; 15]).
  repeat constructor; simpl; intuition discriminate.
Defined.

(** C6. [i10_index] is the number of papers with 10 citations or more,
    and it is the count that [count_above_thresholds] gives for the one
    threshold 10. *)
Theorem i10_index_spec (papers : papers_t) :
  i10_index papers = papers_with_at_least papers 10 /\
  Dict.get 10 (count_above_thresholds papers [10]) = Some (i10_index papers).
Proof.
  split.
  - apply count_at_least_spec.
  - reflexivity.
Qed.

(* ================================================================== *)
(** * Bounds and monotonicity of the h-index *)
(* ================================================================== *)

Lemma at_least_remove (t : Z) (k : string) (v : Z) (q : papers_t) :
  Dict.get k q = Some v ->
  at_least t (Dict.values q) =
  (if v >=? t then 1 else 0) + at_least t (Dict.values (Dict.remove k q)).
Proof.
  induction q as [|[k' v'] q IH]; simpl; [discriminate|].
  destruct (decide (k = k')) as [->|Hne].
  - intros [= ->]. apply at_least_cons.
  - intros Hg. simpl. rewrite !at_least_cons, (IH Hg). lia.
Qed.

(** Raising citation counts, or adding papers, raises every count
    [at_least t]. *)
Lemma at_least_mono (t : Z) (p q : papers_t) :
  Dict.wf p ->
  (forall k v, Dict.get k p = Some v ->
               exists v', Dict.get k q = Some v' /\ v <= v') ->
  at_least t (Dict.values p) <= at_least t (Dict.values q).
Proof.
  unfold Dict.wf. revert q. induction p as [|[k v] p IH]; intros q Hwf Hle.
  - apply at_least_nonneg.
  - simpl in Hwf. apply List.NoDup_cons_iff in Hwf as [Hni Hwf].
    destruct (Hle k v) as (v' & Hq & Hv); [simpl; now rewrite decide_True|].
    simpl. rewrite at_least_cons, (at_least_remove t k v' q Hq).
    assert (at_least t (Dict.values p)
            <= at_least t (Dict.values (Dict.remove k q))).
    { apply IH; [exact Hwf|]. intros k0 v0 Hg.
      assert (Hne : k <> k0).
      { intros <-. apply Hni. apply get_In in Hg.
        change (In k (map fst p)). apply in_map_iff. now exists (k, v0). }
      destruct (Hle k0 v0) as (v0' & Hq0 & Hv0).
      { simpl. rewrite decide_False by congruence. exact Hg. }
      exists v0'. split; [|exact Hv0]. now rewrite get_remove_ne. }
    destruct (Z.geb_spec v t), (Z.geb_spec v' t); lia.
Qed.

(** C4. The h-index is at most the number of papers, and it does not
    decrease when citation counts are raised: for two collections with
    the same keys where no count of the second is below the count of the
    first, the h-index of the second is at least that of the first. *)
Theorem h_index_bounded_monotone (p q : papers_t) :
  h_index p <= Py.len (Dict.items p) /\
  (Dict.wf p -> Dict.wf q ->
   (forall k, In k (Dict.keys p) <-> In k (Dict.keys q)) ->
   (forall k v v', Dict.get k p = Some v -> Dict.get k q = Some v' -> v <= v') ->
   h_index p <= h_index q).
Proof.
  split.
  - destruct (h_index_characterised p) as [Hp _].
    rewrite count_at_least_len in Hp.
    pose proof (at_least_le_len (h_index p) (Dict.values p)) as Hl.
    unfold Py.len, Dict.values, Dict.items in *. rewrite length_map in Hl. lia.
  - intros Hwp Hwq Hkeys Hle.
    destruct (h_index_characterised p) as [Hp _].
    destruct (h_index_characterised q) as [_ Hq].
    apply Hq. rewrite count_at_least_len in *.
    etransitivity; [exact Hp|]. apply at_least_mono; [exact Hwp|].
    intros k v Hg. destruct (Dict.get k q) as [v'|] eqn:E.
    + exists v'. split; [reflexivity|]. now apply (Hle k v v').
    + exfalso. apply get_None in E. apply E, Hkeys.
      apply get_In in Hg. change (In k (map fst p)).
      apply in_map_iff. now exists (k, v).
Qed.

(** C4 at a concrete input: one count goes from 1 to 2. *)
Lemma h_index_bounded_monotone_witness :
  h_index [("A", 3); ("B", 1)] <= h_index [("A", 3); ("B", 2)].
Proof.
  apply (h_index_bounded_monotone [("A", 3); ("B", 1)] [("A", 3); ("B", 2)]).
  - repeat constructor; simpl; intuition discriminate.
  - repeat constructor; simpl; intuition discriminate.
  - intros k. reflexivity.
  - intros k v v'. simpl.
    destruct (decide (k = "A")); [intros [= <-] [= <-]; lia|].
    destruct (decide (k = "B")); [intros [= <-] [= <-]; lia | discriminate].
Defined.

(* ================================================================== *)
(** * Sorted views *)
(* ================================================================== *)

Section Stability.
Context {A : Type} (before same : A -> A -> bool).

(** Elements that count as equal need not be exchanged. *)
Hypothesis same_before :
  forall c x y, same c x = true -> same c y = true -> before x y = true.

Lemma filter_insert c x l :
  List.filter (same c) (Py.insert before x l) = List.filter (same c) (x :: l).
Proof.
  induction l as [|y l IH]; [reflexivity|].
  cbn [Py.insert]. destruct (before x y) eqn:E; [reflexivity|].
  cbn [List.filter] in *. rewrite IH.
  destruct (same c x) eqn:Ex, (same c y) eqn:Ey; try reflexivity.
  rewrite (same_before c x y Ex Ey) in E. discriminate.
Qed.

(** The sort is stable: what counts as equal keeps its order. *)
Lemma isort_stable c l :
  List.filter (same c) (Py.isort before l) = List.filter (same c) l.
Proof.
  induction l as [|x l IH]; [reflexivity|].
  cbn [Py.isort fold_right]. fold (Py.isort before l).
  rewrite filter_insert. cbn [List.filter]. now rewrite IH.
Qed.
End Stability.

Lemma precedes_total mode a b : precedes mode a b = true \/ precedes mode b a = true.
Proof.
  unfold precedes. destruct (String.eqb mode "citations").
  - destruct (Z.leb_spec (snd b) (snd a)), (Z.leb_spec (snd a) (snd b)); auto; lia.
  - apply String.leb_total.
Qed.

Lemma same_key_precedes mode c x y :
  same_key mode c x = true -> same_key mode c y = true -> precedes mode x y = true.
Proof.
  unfold same_key, precedes. destruct (String.eqb mode "citations").
  - intros Hx Hy. apply Z.eqb_eq in Hx, Hy. apply Z.leb_le. lia.
  - intros Hx Hy. apply String.eqb_eq in Hx, Hy. rewrite <- Hx, <- Hy.
    now destruct (String.leb_total (fst c) (fst c)).
Qed.

Lemma sorted_items_wf mode d : Dict.wf d -> Dict.wf (sorted_items mode d).
Proof.
  unfold Dict.wf, Dict.keys. intros Hwf.
  eapply Permutation_NoDup; [|exact Hwf].
  apply Permutation_map. symmetry. apply isort_perm.
Qed.

Lemma alloc_new (d : papers_t) (w : world) :
  exists r, alloc d w = (inr r, with_heap (<[r := d]> (heap w)) w)
            /\ heap w !! r = None.
Proof.
  exists (fresh (dom (heap w))). split; [reflexivity|].
  apply not_elem_of_dom, is_fresh.
Qed.

(** The known modes: a fresh object that holds the sorted items. *)
Lemma get_sorted_papers_known (w : world) (papers : loc) (d : papers_t)
    (mode : string) :
  heap w !! papers = Some d -> Dict.wf d ->
  mode = "citations" \/ mode = "name" ->
  exists r,
    get_sorted_papers papers mode w
      = (inr r, with_heap (<[r := sorted_items mode d]> (heap w)) w)
    /\ heap w !! r = None.
Proof.
  intros Hd Hwf Hmode.
  destruct (alloc_new (sorted_items mode d) w) as (r & Hr & Hnew).
  exists r. split; [|exact Hnew]. rewrite <- Hr.
  pose proof (sorted_items_wf mode d Hwf) as Hs.
  destruct Hmode as [-> | ->]; unfold get_sorted_papers, bind, deref;
    cbn [String.eqb Ascii.eqb Bool.eqb]; rewrite Hd;
    f_equal; apply of_items_wf, Hs.
Qed.

(** C7. For the modes "citations" and "name", [get_sorted_papers]
    returns a new dictionary object and leaves the heap otherwise as it
    was, the original collection included; the new dictionary holds the
    entries of the original in the order of the mode, entries with equal
    keys in their original order; sorting the result again in the same
    mode gives a dictionary with the same entries in the same order. *)
Theorem get_sorted_papers_sorted (w : world) (papers : loc) (d : papers_t)
    (mode : string) :
  heap w !! papers = Some d -> Dict.wf d ->
  mode = "citations" \/ mode = "name" ->
  exists (r : loc) (s : papers_t),
    get_sorted_papers papers mode w = (inr r, with_heap (<[r := s]> (heap w)) w)
    /\ heap w !! r = None
    /\ <[r := s]> (heap w) !! papers = Some d
    /\ Permutation s d
    /\ Sorted (fun a b => precedes mode a b = true) s
    /\ (forall c, List.filter (same_key mode c) s = List.filter (same_key mode c) d)
    /\ (forall w', heap w' !! r = Some s ->
          exists r',
            get_sorted_papers r mode w'
              = (inr r', with_heap (<[r' := s]> (heap w')) w')
            /\ heap w' !! r' = None).
Proof.
  intros Hd Hwf Hmode.
  destruct (get_sorted_papers_known w papers d mode Hd Hwf Hmode) as (r & Hr & Hnew).
  exists r, (sorted_items mode d). repeat split.
  - exact Hr.
  - exact Hnew.
  - rewrite lookup_insert_ne; [exact Hd | congruence].
  - apply isort_perm.
  - apply isort_sorted, precedes_total.
  - intros c. apply isort_stable, same_key_precedes.
  - intros w' Hs.
    destruct (get_sorted_papers_known w' r (sorted_items mode d) mode Hs
                (sorted_items_wf mode d Hwf) Hmode) as (r' & Hr' & Hnew').
    exists r'. split; [|exact Hnew']. rewrite Hr'. do 3 f_equal.
    apply isort_idem, precedes_total.
Qed.

(** C9. For every mode other than "citations" and "name",
    [get_sorted_papers] returns the location that it was given and
    leaves the world as it was: no new object, nothing sorted. *)
Theorem get_sorted_papers_other_mode (w : world) (papers : loc) (mode : string) :
  mode <> "citations" -> mode <> "name" ->
  get_sorted_papers papers mode w = (inr papers, w).
Proof.
  intros Hc Hn. unfold get_sorted_papers.
  apply String.eqb_neq in Hc, Hn. now rewrite Hc, Hn.
Qed.

(* ================================================================== *)
(** * Running computations *)
(* ================================================================== *)

Lemma bind_run {A B} (m : py A) (k : A -> py B) (w w' : world) (a : A) :
  m w = (inr a, w') -> bind m k w = k a w'.
Proof. intros E. unfold bind. now rewrite E. Qed.

Lemma bind_raise {A B} (m : py A) (k : A -> py B) (w w' : world) (e : Py.exn) :
  m w = (inl e, w') -> bind m k w = (inl e, w').
Proof. intros E. unfold bind. now rewrite E. Qed.

Lemma deref_run (r : loc) (d : papers_t) (w : world) :
  heap w !! r = Some d -> deref r w = (inr d, w).
Proof. intros E. unfold deref. now rewrite E. Qed.


Lemma with_stdout_twice (o o' : list string) (w : world) :
  with_stdout o' (with_stdout o w) = with_stdout o' w.
Proof. reflexivity. Qed.



Lemma input_run (prompt line : string) (rest : list string) (w : world) :
  stdin w = line :: rest ->
  input prompt w = (inr line, with_stdin rest (with_stdout (stdout w ++ [prompt]) w)).
Proof. intros E. unfold input. now rewrite E. Qed.

Lemma bind_cong {A B} (m : py A) (k k' : A -> py B) (w : world) :
  (forall a w', m w = (inr a, w') -> k a w' = k' a w') ->
  bind m k w = bind m k' w.
Proof. intros Hk. unfold bind. destruct (m w) as [[e|a] w']; auto. Qed.

(** The loop of [get_int] never runs out of turns: more fuel than the
    input has lines changes nothing. *)
Lemma get_int_loop_fuel (prompt : string) (min_val max_val : option Z)
    (fuel : nat) : forall w : world,
  (List.length (stdin w) < fuel)%nat ->
  get_int_loop fuel prompt min_val max_val w = get_int prompt min_val max_val w.
Proof.
  unfold get_int. induction fuel as [|fuel IH]; intros w Hfuel; [lia|].
  cbn [get_int_loop]. apply bind_cong. intros line w1 Hline.
  assert (Hin : stdin w = line :: stdin w1).
  { unfold input in Hline. destruct (stdin w); [discriminate|].
    now injection Hline as -> <-. }
  rewrite Hin in *. cbn [List.length] in *.
  assert (Hnext : forall w2, stdin w2 = stdin w1 ->
            get_int_loop fuel prompt min_val max_val w2
            = get_int_loop (S (List.length (stdin w1))) prompt min_val max_val w2).
  { intros w2 E. rewrite <- E. apply IH. rewrite E. lia. }
  assert (Hprint : forall s w2, stdin w2 = stdin w1 ->
            (print s ;; get_int_loop fuel prompt min_val max_val) w2
            = (print s ;; get_int_loop (S (List.length (stdin w1))) prompt min_val max_val) w2).
  { intros s w2 E. apply bind_cong. intros [] w3 Hp. apply Hnext.
    unfold print in Hp. now injection Hp as <-. }
  destruct (Py.isdigit (Py.strip line)); [|now apply Hprint].
  apply bind_cong. intros val w2 Hval.
  assert (w2 = w1) as ->.
  { unfold lift in Hval. now injection Hval. }
  destruct (_ || _); [now apply Hprint | reflexivity].
Qed.

(* ================================================================== *)
(** * Editing *)
(* ================================================================== *)


(* ================================================================== *)
(** * The summary report *)
(* ================================================================== *)

Section Report.
Context `{Runtime}.

(** The two outlier lists are filters of the items, so they keep the
    order of the collection; an entry that is above the high threshold is
    not looked at for the low one. *)
Lemma outliers_scan (hi lo : num) (l : list (string * Z)) (acc : outliers) :
  fold_left
    (fun (acc : outliers) (nc : string * Z) =>
       let (name, cit) := nc in
       if int_gt cit hi then (fst acc ++ [(name, cit)], snd acc)
       else if int_lt cit lo then (fst acc, snd acc ++ [(name, cit)])
       else acc) l acc
  = (fst acc ++ List.filter (fun nc => int_gt (snd nc) hi) l,
     snd acc ++ List.filter
                  (fun nc => negb (int_gt (snd nc) hi) && int_lt (snd nc) lo) l).
Proof.
  revert acc. induction l as [|[name cit] l IH]; intros [h lw]; cbn [fold_left].
  - cbn. now rewrite !app_nil_r.
  - rewrite IH. cbn [List.filter fst snd].
    destruct (int_gt cit hi); cbn [negb andb fst snd].
    + now rewrite <- app_assoc.
    + destruct (int_lt cit lo); cbn [fst snd]; [now rewrite <- app_assoc | reflexivity].
Qed.

Lemma detect_outliers_many (d : papers_t) (mean_val std_dev : num) :
  1 < Py.len (Dict.values d) ->
  mean (Dict.values d) = inr mean_val ->
  stdev (Dict.values d) = inr std_dev ->
  let hi := num_add mean_val (int_mul 2 std_dev) in
  let lo := num_sub mean_val (int_mul 2 std_dev) in
  detect_outliers d
  = inr (List.filter (fun nc => int_gt (snd nc) hi) (Dict.items d),
         List.filter (fun nc => negb (int_gt (snd nc) hi) && int_lt (snd nc) lo)
                     (Dict.items d)).
Proof.
  intros Hn Hm Hs hi lo. unfold detect_outliers.
  destruct (Z.gtb_spec (Py.len (Dict.values d)) 1); [|lia].
  rewrite Hm, Hs. f_equal. apply (outliers_scan hi lo).
Qed.

(** With fewer than two papers nothing is computed and both lists are
    empty. *)
Lemma detect_outliers_few (d : papers_t) :
  Py.len (Dict.values d) < 2 -> detect_outliers d = inr ([], []).
Proof.
  intros Hn. unfold detect_outliers.
  destruct (Z.gtb_spec (Py.len (Dict.values d)) 1); [lia | reflexivity].
Qed.

(** C10. On the empty collection [generate_summary_report] returns the
    text "No papers available." with a line feed and changes nothing;
    the statistics that the rest of the function computes all raise on
    the empty list, and so would the rest of the function. *)
Theorem generate_summary_report_empty (w : world) (papers : loc) :
  heap w !! papers = Some [] ->
  generate_summary_report papers w = (inr ("No papers available." +:+ Py.nl), w)
  /\ mean [] = inl Py.StatisticsError
  /\ median [] = inl Py.StatisticsError
  /\ stdev [] = inl Py.StatisticsError
  /\ Py.max [] = inl (Py.ValueError "max")
  /\ Py.min [] = inl (Py.ValueError "min")
  /\ report_body papers [] w = (inl Py.StatisticsError, w).
Proof.
  intros Hd. split; [|repeat split].
  unfold generate_summary_report.
  now rewrite (bind_run (A := papers_t) _ _ w w []) by now apply deref_run.
Qed.

End Report.

(* ================================================================== *)
(** * Facts about strings *)
(* ================================================================== *)

Lemma sapp_assoc (a b c : string) : (a +:+ b) +:+ c = a +:+ b +:+ c.
Proof. induction a as [|x a IH]; cbn [String.append]; [reflexivity | now rewrite IH]. Qed.

Lemma sapp_empty (a b : string) : a +:+ b = EmptyString -> b = EmptyString.
Proof. destruct a; [trivial | discriminate]. Qed.

Lemma all_chars_app p (a b : string) :
  Py.all_chars p (a +:+ b) = Py.all_chars p a && Py.all_chars p b.
Proof.
  induction a as [|x a IH]; simpl; [reflexivity|].
  rewrite IH. now rewrite andb_assoc.
Qed.

Lemma all_chars_impl (p q : ascii -> bool) (s : string) :
  (forall c, p c = true -> q c = true) ->
  Py.all_chars p s = true -> Py.all_chars q s = true.
Proof.
  intros Hpq. induction s as [|x s IH]; simpl; [reflexivity|].
  intros Hs. apply andb_true_iff in Hs as [Hx Hs].
  now rewrite (Hpq x Hx), IH.
Qed.

Lemma contains_all_chars (x : ascii) (s : string) :
  Py.contains x s = false <-> Py.all_chars (fun c => negb (Ascii.eqb c x)) s = true.
Proof.
  induction s as [|c s IH]; simpl; [tauto|].
  rewrite orb_false_iff, andb_true_iff, negb_true_iff, IH. tauto.
Qed.

Lemma contains_app_sep (x : ascii) (a b : string) :
  Py.contains x (a +:+ String x b) = true.
Proof.
  induction a as [|c a IH]; simpl.
  - now rewrite Ascii.eqb_refl.
  - rewrite IH. apply orb_true_r.
Qed.

Lemma split1_app (x : ascii) (a b : string) :
  Py.contains x a = false -> Py.split1 x (a +:+ String x b) = Some (a, b).
Proof.
  induction a as [|c a IH]; simpl.
  - now rewrite Ascii.eqb_refl.
  - intros Hc. apply orb_false_iff in Hc as [Hx Ha].
    now rewrite Hx, (IH Ha).
Qed.


Lemma rstrip_app (a b : string) :
  Py.rstrip b <> EmptyString -> Py.rstrip (a +:+ b) = a +:+ Py.rstrip b.
Proof.
  intros Hb. induction a as [|c a IH]; [reflexivity|].
  cbn [String.append Py.rstrip]. rewrite IH.
  destruct (a +:+ Py.rstrip b) eqn:E; [|reflexivity].
  apply sapp_empty in E. contradiction.
Qed.

Lemma rstrip_line (s : string) :
  Py.all_chars (fun c => negb (Py.isspace c)) s = true ->
  Py.rstrip (s +:+ Py.nl) = s.
Proof.
  induction s as [|c s IH]; [reflexivity|].
  cbn [Py.all_chars]. intros Hs. apply andb_true_iff in Hs as [Hc Hs].
  cbn [String.append Py.rstrip]. rewrite (IH Hs).
  apply negb_true_iff in Hc. rewrite Hc. now destruct s.
Qed.

Lemma readlines_line (body rest : string) :
  Py.all_chars inline body = true ->
  Py.readlines (body +:+ Py.nl +:+ rest) = (body +:+ Py.nl) :: Py.readlines rest.
Proof.
  induction body as [|c body IH]; [reflexivity|].
  cbn [Py.all_chars]. intros Hs. apply andb_true_iff in Hs as [Hc Hs].
  unfold inline in Hc. apply andb_true_iff in Hc as [Hn Hr].
  apply negb_true_iff in Hn, Hr.
  cbn [String.append Py.readlines]. rewrite Hn, Hr, (IH Hs). reflexivity.
Qed.

(** ** Decimal numerals *)

Lemma uint_decimal (d : Decimal.uint) :
  Py.all_chars decimal (NilEmpty.string_of_uint d) = true.
Proof. induction d; simpl; auto. Qed.

Lemma str_decimal (n : Z) :
  0 <= n -> Py.str n <> EmptyString /\ Py.all_chars decimal (Py.str n) = true.
Proof.
  intros Hn. unfold Py.str. destruct n as [|p|p]; [now split | | lia].
  cbn [Z.to_int NilZero.string_of_int]. unfold NilZero.string_of_uint.
  pose proof (Unsigned.to_uint_nonnil p) as Hnil.
  pose proof (uint_decimal (Pos.to_uint p)) as Hdec.
  destruct (Pos.to_uint p); [contradiction | | | | | | | | | | ];
    (split; [discriminate | exact Hdec]).
Qed.

Lemma int_str (n : Z) : 0 <= n -> Py.int (Py.str n) = inr n.
Proof.
  intros Hn. unfold Py.int, Py.str.
  assert (E : Z.to_int n = Decimal.Pos (N.to_uint (Z.to_N n))).
  { destruct n; [reflexivity | reflexivity | lia]. }
  rewrite E. cbn [NilZero.string_of_int].
  rewrite NilZero.usu.
  - unfold Z.of_uint. change (Pos.of_uint ?d) with (N.of_uint d).
    rewrite DecimalN.Unsigned.of_to. f_equal. lia.
  - destruct (Z.to_N n); [discriminate | apply Unsigned.to_uint_nonnil].
Qed.

Lemma isdigit_decimal (s : string) :
  s <> EmptyString -> Py.all_chars decimal s = true -> Py.isdigit s = true.
Proof.
  intros Hne Hs. destruct s as [|c s]; [contradiction|].
  unfold Py.isdigit. revert Hs. apply all_chars_impl.
  intros x Hx. unfold decimal in Hx. unfold Py.isdigit_char.
  now rewrite Hx.
Qed.

Lemma decimal_not_space c : decimal c = true -> negb (Py.isspace c) = true.
Proof.
  unfold decimal, Py.isspace. intros Hc.
  apply andb_true_iff in Hc as [H1 H2].
  apply N.leb_le in H1, H2. apply negb_true_iff.
  repeat (apply orb_false_iff; split);
    first [ apply andb_false_iff; right; apply N.leb_gt; lia
          | apply N.eqb_neq; lia ].
Qed.

Lemma decimal_inline c : decimal c = true -> inline c = true.
Proof.
  unfold decimal, inline. intros Hc.
  apply andb_true_iff in Hc as [H1 H2]. apply N.leb_le in H1, H2.
  apply andb_true_iff; split; apply negb_true_iff, Ascii.eqb_neq;
    intros ->; simpl in *; lia.
Qed.

(* ================================================================== *)
(** * Saving and loading *)
(* ================================================================== *)

Lemma for_each_write (f : string * Z -> string) (path : string)
    (l : list (string * Z)) (text : string) (w : world) :
  files w !! path = Some text ->
  for_each l (fun x => write path (f x)) w
  = (inr tt,
     with_files
       (<[path := text +:+ fold_right (fun x t => f x +:+ t) EmptyString l]> (files w)) w).
Proof.
  revert text w. induction l as [|x l IH]; intros text w Hf; cbn [for_each fold_right].
  - unfold ret. f_equal. destruct w as [h i o fs ro]. unfold with_files. cbn in *.
    f_equal. symmetry. apply insert_id.
    rewrite Hf. f_equal. clear. induction text; simpl; congruence.
  - unfold bind, write at 1. rewrite Hf.
    rewrite (IH (text +:+ f x)); [|apply lookup_insert_eq].
    cbn [files with_files heap stdin stdout readonly].
    now rewrite insert_insert_eq, sapp_assoc.
Qed.

Section Files.
Context `{Runtime}.

Lemma save_run (w : world) (papers : loc) (d : papers_t) (filename : string) :
  heap w !! papers = Some d -> filename ∉ readonly w ->
  save_papers_to_txt papers filename w
  = (inr tt,
     with_stdout
       (stdout w ++ [("Papers saved to '" +:+ filename +:+ "' successfully."
                      +:+ Py.nl) +:+ Py.nl])
       (with_files (<[filename := saved_text d]> (files w)) w)).
Proof.
  intros Hd Hro. unfold save_papers_to_txt, try_except.
  set (w1 := with_files (<[filename := EmptyString]> (files w)) w).
  assert (Hopen : open_w filename w = (inr tt, w1)).
  { unfold open_w. now rewrite bool_decide_eq_false_2. }
  rewrite (bind_run _ _ w w1 tt Hopen).
  rewrite (bind_run _ _ w1 w1 d) by now apply deref_run.
  unfold Dict.items.
  erewrite bind_run.
  2: { apply (for_each_write entry_line filename d EmptyString w1).
       apply lookup_insert_eq. }
  unfold print. cbn [files with_files heap stdin stdout readonly with_stdout w1].
  now rewrite insert_insert_eq.
Qed.






End Files.

(* ================================================================== *)
(** * The claims at concrete inputs *)
(* ================================================================== *)


Example h_index_example :
  h_index [("A", 10); ("B", 10); ("C", 10); ("D", 1)] = 3
  /\ i10_index [("A", 10); ("B", 10); ("C", 10); ("D", 1)] = 3.
Proof. split; reflexivity. Qed.

(** The loop of [h_index] must not stop at the first rank that fails only
    because the counts are sorted: on an unsorted list it would differ. *)
Example h_loop_unsorted : h_loop 1 0 [0; 5; 5] = 3.
Proof. reflexivity. Qed.

(** C7 at a concrete input: two papers with the names out of order. *)
Lemma get_sorted_papers_sorted_witness :
  exists (r : loc) (s : papers_t),
    get_sorted_papers 1 "name" (world_of [("b", 1); ("a", 1)] [])
    = (inr r, with_heap (<[r := s]> (heap (world_of [("b", 1); ("a", 1)] [])))
                        (world_of [("b", 1); ("a", 1)] []))
    /\ Sorted (fun a b => precedes "name" a b = true) s.
Proof.
  destruct (get_sorted_papers_sorted (world_of [("b", 1); ("a", 1)] []) 1
              [("b", 1); ("a", 1)] "name") as (r & s & Hrun & _ & _ & _ & Hs & _).
  - reflexivity.
  - repeat constructor; simpl; intuition discriminate.
  - now right.
  - exists r, s. split; [exact Hrun | exact Hs].
Defined.

Example sorted_by_citations :
  sorted_items "citations" [("a", 1); ("b", 7); ("c", 1); ("d", 7)]
  = [("b", 7); ("d", 7); ("a", 1); ("c", 1)].
Proof. reflexivity. Qed.

(** C9 at a concrete input: a mode spelled with a capital. *)
Lemma get_sorted_papers_other_mode_witness :
  get_sorted_papers 1 "Citations" (world_of two_papers [])
  = (inr 1%positive, world_of two_papers []).
Proof.
  apply (get_sorted_papers_other_mode (world_of two_papers []) 1 "Citations");
    discriminate.
Defined.


(** C10 at a concrete input: a world whose collection is empty. *)
Lemma generate_summary_report_empty_witness :
  generate_summary_report (H := fixed_runtime) 1 (world_of [] [])
  = (inr ("No papers available." +:+ Py.nl), world_of [] []).
Proof.
  apply (generate_summary_report_empty (H := fixed_runtime) (world_of [] []) 1).
  reflexivity.
Defined.

(** The report of a collection of three, with the runtime above. *)
Example report_runs :
  exists text w',
    generate_summary_report (H := fixed_runtime) 1
      (world_of [("P1", 0); ("P2", 0); ("P3", 100)] []) = (inr text, w').
Proof. eexists _, _. vm_compute. reflexivity. Qed.




(** The other conditions of the round trip are needed as well: a line
    break in a name, a negative count and a path that cannot be written
    each lose the entry. *)
Example save_load_loses_line_break :
  let w := world_of [("A" +:+ Py.nl +:+ "B", 5)] [] in
  exists w1 w2 r,
    save_papers_to_txt (H := fixed_runtime) 1 "list.txt" w = (inr tt, w1)
    /\ load_papers_from_txt (H := fixed_runtime) "list.txt" w1 = (inr r, w2)
    /\ heap w2 !! r = Some [("B", 5)].
Proof.
  cbv zeta. eexists _, _, _. repeat split; vm_compute; reflexivity.
Qed.

Example save_load_loses_negative_count :
  let w := world_of [("A", -1)] [] in
  exists w1 w2 r,
    save_papers_to_txt (H := fixed_runtime) 1 "list.txt" w = (inr tt, w1)
    /\ load_papers_from_txt (H := fixed_runtime) "list.txt" w1 = (inr r, w2)
    /\ heap w2 !! r = Some [].
Proof.
  cbv zeta. eexists _, _, _. repeat split; vm_compute; reflexivity.
Qed.

Example save_load_needs_writable_path :
  let w := World {[ 1%positive := two_papers ]} [] [] ∅ {[ "list.txt" ]} in
  exists w1 w2 r,
    save_papers_to_txt (H := fixed_runtime) 1 "list.txt" w = (inr tt, w1)
    /\ load_papers_from_txt (H := fixed_runtime) "list.txt" w1 = (inr r, w2)
    /\ heap w2 !! r = Some []
    /\ stdout w2 = [ ("Error saving file: cannot open: list.txt" +:+ Py.nl) +:+ Py.nl;
                     ("File does not exist." +:+ Py.nl) +:+ Py.nl ].
Proof.
  cbv zeta. eexists _, _, _. repeat split; vm_compute; reflexivity.
Qed.

(* ================================================================== *)
(** * More about the indices *)
(* ================================================================== *)

Lemma papers_with_at_least_perm (p q : papers_t) (t : Z) :
  Permutation p q -> papers_with_at_least p t = papers_with_at_least q t.
Proof.
  intros H. rewrite <- !count_at_least_spec, !count_at_least_len.
  apply at_least_perm. unfold Dict.values. now apply Permutation_map.
Qed.

Lemma count_at_least_perm (p q : papers_t) (t : Z) :
  Permutation p q -> count_at_least p t = count_at_least q t.
Proof.
  intros H. rewrite !count_at_least_spec. now apply papers_with_at_least_perm.
Qed.

Lemma h_index_le_of_counts (p q : papers_t) :
  (forall t, papers_with_at_least p t <= papers_with_at_least q t) ->
  h_index p <= h_index q.
Proof.
  intros Hle.
  destruct (h_index_characterised p) as [Hp _].
  destruct (h_index_characterised q) as [_ Hq].
  apply Hq. rewrite count_at_least_spec in *. specialize (Hle (h_index p)). lia.
Qed.

(** The indices do not depend on the order of the entries. *)
Theorem indices_ignore_order (p q : papers_t) :
  Permutation (Dict.items p) (Dict.items q) ->
  h_index p = h_index q
  /\ i10_index p = i10_index q
  /\ forall thresholds,
       count_above_thresholds p thresholds = count_above_thresholds q thresholds.
Proof.
  unfold Dict.items. intros H. repeat split.
  - apply Z.le_antisymm; apply h_index_le_of_counts; intros t;
      rewrite (papers_with_at_least_perm p q t H); lia.
  - now apply count_at_least_perm.
  - intros thresholds. unfold count_above_thresholds. f_equal.
    apply map_ext. intros t. f_equal. now apply count_at_least_perm.
Qed.

(** The indices at a concrete input: two orders of the same entries. *)
Lemma indices_ignore_order_witness :
  h_index [("A", 3); ("B", 1)] = h_index [("B", 1); ("A", 3)].
Proof.
  apply (indices_ignore_order [("A", 3); ("B", 1)] [("B", 1); ("A", 3)]).
  apply perm_swap.
Defined.

Lemma papers_with_at_least_cons (name : string) (c t : Z) (p : papers_t) :
  papers_with_at_least ((name, c) :: p) t
  = (if t <=? c then 1 else 0) + papers_with_at_least p t.
Proof.
  unfold papers_with_at_least, Dict.items, Py.len. cbn [List.filter snd].
  destruct (t <=? c); cbn [List.length]; lia.
Qed.

Lemma papers_with_at_least_antitone (p : papers_t) (t t' : Z) :
  t <= t' -> papers_with_at_least p t' <= papers_with_at_least p t.
Proof.
  intros Ht. induction p as [|[name c] p IH]; [reflexivity|].
  rewrite !papers_with_at_least_cons.
  destruct (Z.leb_spec t' c), (Z.leb_spec t c); lia.
Qed.

Lemma papers_with_at_least_bounds (p : papers_t) (t : Z) :
  0 <= papers_with_at_least p t <= Py.len p.
Proof.
  induction p as [|[name c] p IH].
  - unfold papers_with_at_least, Py.len. cbn. lia.
  - rewrite papers_with_at_least_cons. unfold Py.len in *. cbn [List.length].
    destruct (t <=? c); lia.
Qed.

(** Adding a paper under a new name never lowers the h-index and raises
    it by at most one. *)
Theorem h_index_new_paper (p : papers_t) (name : string) (c : Z) :
  ~ In name (Dict.keys p) ->
  h_index p <= h_index (Dict.set name c p) <= h_index p + 1.
Proof.
  intros Hnew. rewrite (set_new name c p Hnew).
  assert (Hperm : Permutation (p ++ [(name, c)]) ((name, c) :: p)).
  { symmetry. apply Permutation_cons_append. }
  assert (Hcount : forall t, papers_with_at_least (p ++ [(name, c)]) t
                    = (if t <=? c then 1 else 0) + papers_with_at_least p t).
  { intros t. rewrite (papers_with_at_least_perm _ _ t Hperm).
    apply papers_with_at_least_cons. }
  split.
  - apply h_index_le_of_counts. intros t. rewrite Hcount.
    destruct (t <=? c); lia.
  - set (q := p ++ [(name, c)]) in *.
    destruct (h_index_characterised q) as [Hq _].
    destruct (h_index_characterised p) as [_ Hp].
    rewrite count_at_least_spec in Hq.
    assert (h_index q - 1 <= h_index p); [|lia].
    apply Hp. rewrite count_at_least_spec.
    pose proof (papers_with_at_least_antitone p (h_index q - 1) (h_index q)).
    rewrite Hcount in Hq. destruct (h_index q <=? c); lia.
Qed.

(** A new paper at a concrete input. *)
Lemma h_index_new_paper_witness :
  h_index [("A", 3)] <= h_index (Dict.set "B" 5 [("A", 3)]) <= h_index [("A", 3)] + 1.
Proof.
  apply (h_index_new_paper [("A", 3)] "B" 5). simpl. intuition discriminate.
Defined.

Lemma filter_all {A} (f : A -> bool) (l : list A) :
  List.length (List.filter f l) = List.length l <-> Forall (fun x => f x = true) l.
Proof.
  induction l as [|x l IH]; cbn [List.filter List.length].
  - split; [constructor | reflexivity].
  - pose proof (filter_length_le f l). destruct (f x) eqn:E; cbn [List.length].
    + split.
      * intros Hl. constructor; [exact E | apply IH; lia].
      * intros Hf. apply Forall_cons_iff in Hf as [_ Hf]. apply IH in Hf. lia.
    + split; [lia|]. intros Hf. apply Forall_cons_iff in Hf as [Hx _]. congruence.
Qed.

(** The h-index is never negative, and it reaches the number of papers
    exactly when every paper has at least that many citations. *)
Theorem h_index_extremes (p : papers_t) :
  0 <= h_index p
  /\ (h_index p = Py.len (Dict.items p)
      <-> forall name c, In (name, c) (Dict.items p) -> Py.len (Dict.items p) <= c).
Proof.
  unfold Dict.items.
  destruct (h_index_characterised p) as [Hp Hmax].
  pose proof (papers_with_at_least_bounds p) as Hb.
  split.
  - apply Hmax. rewrite count_at_least_spec. apply Hb.
  - rewrite count_at_least_spec in Hp.
    assert (Hall : papers_with_at_least p (Py.len p) = Py.len p
                   <-> forall name c, In (name, c) p -> Py.len p <= c).
    { assert (Hf : Forall (fun nc : string * Z => (Py.len p <=? snd nc) = true) p
                   <-> forall name c, In (name, c) p -> Py.len p <= c).
      { rewrite List.Forall_forall. split.
        - intros Hf name c Hi. apply Z.leb_le. apply (Hf (name, c) Hi).
        - intros Hf [name c] Hi. apply Z.leb_le. now apply (Hf name c). }
      rewrite <- Hf, <- filter_all. unfold papers_with_at_least, Dict.items, Py.len.
      split; [apply Nat2Z.inj | congruence]. }
    split.
    + intros E. apply Hall. rewrite E in Hp. specialize (Hb (Py.len p)). lia.
    + intros Hc. apply Hall in Hc. apply Z.le_antisymm.
      * specialize (Hb (h_index p)). lia.
      * apply Hmax. rewrite count_at_least_spec. lia.
Qed.

Lemma count_above_thresholds_get (p : papers_t) (thresholds : list Z) (t v : Z) :
  Dict.get t (count_above_thresholds p thresholds) = Some v ->
  v = papers_with_at_least p t.
Proof.
  unfold count_above_thresholds, Dict.of_items.
  rewrite (comprehension_get (count_at_least p)).
  destruct (in_dec Z.eq_dec t thresholds); [|discriminate].
  intros [= <-]. apply count_at_least_spec.
Qed.

(** The counts that [count_above_thresholds] stores lie between 0 and the
    number of papers, and a higher threshold never has the larger count;
    the i10-index lies between 0 and the number of papers as well. *)
Theorem counts_bounded_antitone (p : papers_t) (thresholds : list Z)
    (t t' v v' : Z) :
  Dict.get t (count_above_thresholds p thresholds) = Some v ->
  Dict.get t' (count_above_thresholds p thresholds) = Some v' ->
  0 <= v <= Py.len (Dict.items p)
  /\ (t <= t' -> v' <= v)
  /\ 0 <= i10_index p <= Py.len (Dict.items p).
Proof.
  intros Hv Hv'. apply count_above_thresholds_get in Hv, Hv'. subst v v'.
  unfold i10_index. rewrite count_at_least_spec. unfold Dict.items.
  pose proof (papers_with_at_least_bounds p) as Hb.
  repeat split; try apply Hb.
  intros Ht. now apply papers_with_at_least_antitone.
Qed.

(** The counts at a concrete input: thresholds 5 and 15. *)
Lemma counts_bounded_antitone_witness :
  0 <= 2 <= Py.len (Dict.items [("X", 20); ("Y", 10); ("Z", 2)])
  /\ (5 <= 15 -> 1 <= 2)
  /\ 0 <= i10_index [("X", 20); ("Y", 10); ("Z", 2)]
     <= Py.len (Dict.items [("X", 20); ("Y", 10); ("Z", 2)]).
Proof.
  apply (counts_bounded_antitone [("X", 20); ("Y", 10); ("Z", 2)] [5; 15] 5 15 2 1);
    reflexivity.
Defined.

(* ================================================================== *)
(** * Reading numbers *)
(* ================================================================== *)

Lemma bind_inv {A B} (m : py A) (k : A -> py B) (w w' : world) (r : Py.exn + B) :
  bind m k w = (r, w') ->
  (exists e, m w = (inl e, w') /\ r = inl e)
  \/ (exists a w1, m w = (inr a, w1) /\ k a w1 = (r, w')).
Proof.
  unfold bind. destruct (m w) as [[e|a] w1]; intros E.
  - left. exists e. now injection E as <- <-.
  - right. now exists a, w1.
Qed.

Lemma int_nonneg (s : string) (v : Z) : Py.int s = inr v -> 0 <= v.
Proof.
  unfold Py.int. destruct (NilZero.uint_of_string s); [|discriminate].
  intros [= <-]. unfold Z.of_uint. lia.
Qed.

Lemma uint_of_char_decimal (a : ascii) (d : option Decimal.uint) (d' : Decimal.uint) :
  uint_of_char a d = Some d' -> decimal a = true.
Proof.
  unfold uint_of_char. destruct d; [|discriminate].
  destruct a as [[] [] [] [] [] [] [] []]; try discriminate; reflexivity.
Qed.

Lemma uint_of_string_decimal (s : string) (d : Decimal.uint) :
  NilEmpty.uint_of_string s = Some d -> Py.all_chars decimal s = true.
Proof.
  revert d. induction s as [|a s IH]; intros d; [reflexivity|].
  cbn [NilEmpty.uint_of_string Py.all_chars]. intros E.
  rewrite (uint_of_char_decimal _ _ _ E).
  destruct (NilEmpty.uint_of_string s) as [d0|] eqn:Es.
  - now rewrite (IH d0).
  - unfold uint_of_char in E. discriminate.
Qed.

(** [int] fails on every digit string that holds a superscript. *)
Lemma int_not_decimal (s : string) :
  Py.all_chars decimal s = false -> Py.int s = inl (Py.ValueError s).
Proof.
  intros Hs. unfold Py.int, NilZero.uint_of_string.
  destruct s as [|a s]; [reflexivity|].
  destruct (NilEmpty.uint_of_string (String a s)) as [d|] eqn:E; [|reflexivity].
  apply uint_of_string_decimal in E. congruence.
Qed.

Lemma get_int_loop_returns (prompt : string) (min_val max_val : option Z)
    (fuel : nat) : forall (w w' : world) (val : Z),
  get_int_loop fuel prompt min_val max_val w = (inr val, w') ->
  0 <= val
  /\ out_of_bounds min_val max_val val = false
  /\ heap w' = heap w /\ files w' = files w
  /\ exists n, stdin w' = skipn (S n) (stdin w).
Proof.
  induction fuel as [|fuel IH]; intros w w' val; [discriminate|].
  cbn [get_int_loop]. intros E.
  apply bind_inv in E as [(e & _ & [=])|(line & w1 & Hline & E)].
  unfold input in Hline. destruct (stdin w) as [|l rest] eqn:Hin; [discriminate|].
  injection Hline as -> <-.
  assert (Hloop : forall s w2,
            (print s ;; get_int_loop fuel prompt min_val max_val) w2 = (inr val, w') ->
            stdin w2 = rest -> heap w2 = heap w -> files w2 = files w ->
            0 <= val /\ out_of_bounds min_val max_val val = false
            /\ heap w' = heap w /\ files w' = files w
            /\ exists n, stdin w' = skipn (S n) (line :: rest)).
  { intros s w2 E2 Hs Hh Hf. unfold bind, print in E2.
    apply IH in E2 as (H0 & Hb & Hh' & Hf' & n & Hn).
    cbn [heap files stdin with_stdout] in *. repeat split; try congruence.
    exists (S n). rewrite Hn, Hs. reflexivity. }
  destruct (Py.isdigit (Py.strip line)); [|now apply (Hloop _ _ E)].
  apply bind_inv in E as [(e & _ & [=])|(v & w1 & Hv & E)].
  unfold lift in Hv. injection Hv as Hv <-.
  fold (out_of_bounds min_val max_val v) in E.
  destruct (out_of_bounds min_val max_val v) eqn:Hb; [now apply (Hloop _ _ E)|].
  unfold ret in E. injection E as <- <-.
  repeat split; [now apply (int_nonneg _ _ Hv) | exact Hb|]. now exists 0%nat.
Qed.

(** Whatever the user types, a number that [get_int] returns is not
    negative and lies within the bounds given; reading it takes at least
    one line of input and changes neither the heap nor the files. *)
Theorem get_int_returns_valid (prompt : string) (min_val max_val : option Z)
    (w w' : world) (val : Z) :
  get_int prompt min_val max_val w = (inr val, w') ->
  0 <= val
  /\ (forall m, min_val = Some m -> m <= val)
  /\ (forall m, max_val = Some m -> val <= m)
  /\ heap w' = heap w /\ files w' = files w
  /\ exists n, stdin w' = skipn (S n) (stdin w).
Proof.
  unfold get_int. intros E.
  apply get_int_loop_returns in E as (H0 & Hb & Hh & Hf & Hn).
  unfold out_of_bounds in Hb. apply orb_false_iff in Hb as [Hlo Hhi].
  repeat split; try assumption.
  - intros m ->. apply Z.ltb_ge in Hlo. exact Hlo.
  - intros m ->. rewrite Z.gtb_ltb in Hhi. apply Z.ltb_ge in Hhi. exact Hhi.
Qed.





(** A returned number at a concrete input. *)
Lemma get_int_returns_valid_witness :
  0 <= 7 /\ (forall m, Some 1 = Some m -> m <= 7).
Proof.
  destruct (get_int_returns_valid "n: " (Some 1) (Some 17)
              (world_of [] ["seven"; "70"; " 7 "; "y"])
              (with_stdin ["y"]
                 (with_stdout
                    (flat_map (rejection_lines "n: " (Some 1) (Some 17)) ["seven"; "70"]
                     ++ ["n: "])
                    (world_of [] ["seven"; "70"; " 7 "; "y"]))) 7)
    as (H0 & Hlo & _); [vm_compute; reflexivity|].
  split; [exact H0 | exact Hlo].
Defined.

(** A line that passes [isdigit] but holds a superscript digit makes
    [get_int] end with [ValueError]: the line is not asked for again. *)
Theorem get_int_superscript_raises (prompt : string) (min_val max_val : option Z)
    (w : world) (line : string) (rest : list string) :
  stdin w = line :: rest ->
  Py.isdigit (Py.strip line) = true ->
  Py.all_chars decimal (Py.strip line) = false ->
  get_int prompt min_val max_val w
  = (inl (Py.ValueError (Py.strip line)),
     with_stdin rest (with_stdout (stdout w ++ [prompt]) w)).
Proof.
  intros Hin Hd Hs. unfold get_int. rewrite Hin. cbn [List.length get_int_loop].
  rewrite (bind_run _ _ _ _ _ (input_run prompt line rest w Hin)).
  rewrite Hd. unfold bind, lift. now rewrite (int_not_decimal _ Hs).
Qed.

(** The superscript two, typed as a citation count. *)
Lemma get_int_superscript_raises_witness :
  get_int "n: " (Some 0) None (world_of [] [String "178" EmptyString])
  = (inl (Py.ValueError (String "178" EmptyString)),
     with_stdin [] (with_stdout ["n: "] (world_of [] [String "178" EmptyString]))).
Proof.
  apply (get_int_superscript_raises "n: " (Some 0) None
           (world_of [] [String "178" EmptyString]) (String "178" EmptyString) []);
    reflexivity.
Defined.

(* ================================================================== *)
(** * More about dictionaries *)
(* ================================================================== *)

Section MoreDictFacts.
Context {K V : Type} `{EqDecision K}.
Implicit Types (d : Dict.t K V) (k : K) (v : V).

Lemma mem_get k d : Dict.mem k d = true -> exists v, Dict.get k d = Some v.
Proof. unfold Dict.mem. destruct (Dict.get k d) as [v|]; [now exists v | discriminate]. Qed.







Lemma set_wf k v d : Dict.wf d -> Dict.wf (Dict.set k v d).
Proof.
  unfold Dict.wf. intros Hwf. rewrite keys_set.
  destruct (Dict.mem k d) eqn:E; [exact Hwf|].
  assert (Hn : ~ In k (Dict.keys d)).
  { intros Hi. apply mem_In in Hi. congruence. }
  clear E. induction (Dict.keys d) as [|k0 l IH]; cbn.
  - constructor; [tauto | constructor].
  - apply List.NoDup_cons_iff in Hwf as [Hni Hwf]. constructor.
    + intros Hi. apply in_app_or in Hi as [Hi|[->|[]]]; [tauto|]. apply Hn. now left.
    + apply IH; [exact Hwf|]. intros Hi. apply Hn. now right.
Qed.

End MoreDictFacts.

(* ================================================================== *)
(** * The three actions of the editor *)
(* ================================================================== *)













(* ================================================================== *)
(** * More about strings *)
(* ================================================================== *)

Lemma all_chars_lstrip p (s : string) :
  Py.all_chars p s = true -> Py.all_chars p (Py.lstrip s) = true.
Proof.
  induction s as [|c s IH]; [reflexivity|]. cbn [Py.lstrip Py.all_chars].
  intros Hs. destruct (Py.isspace c); [|exact Hs].
  apply andb_true_iff in Hs as [_ Hs]. now apply IH.
Qed.

Lemma all_chars_rstrip p (s : string) :
  Py.all_chars p s = true -> Py.all_chars p (Py.rstrip s) = true.
Proof.
  induction s as [|c s IH]; [reflexivity|]. cbn [Py.rstrip Py.all_chars].
  intros Hs. apply andb_true_iff in Hs as [Hc Hs]. specialize (IH Hs).
  destruct (Py.rstrip s) as [|c' s'].
  - destruct (Py.isspace c); [reflexivity|]. cbn. now rewrite Hc.
  - cbn [Py.all_chars] in *. now rewrite Hc, IH.
Qed.

Lemma rstrip_nl (s : string) : Py.rstrip (s +:+ Py.nl) = Py.rstrip s.
Proof.
  induction s as [|c s IH]; [reflexivity|].
  cbn [String.append Py.rstrip]. now rewrite IH.
Qed.

Lemma lstrip_nl (s : string) :
  Py.lstrip (s +:+ Py.nl)
  = match Py.lstrip s with
    | EmptyString => EmptyString
    | t => t +:+ Py.nl
    end.
Proof.
  induction s as [|c s IH]; [reflexivity|].
  cbn [String.append Py.lstrip]. destruct (Py.isspace c); [exact IH | reflexivity].
Qed.

(** Stripping a line does not see the line feed at its end. *)
Lemma strip_nl (s : string) : Py.strip (s +:+ Py.nl) = Py.strip s.
Proof.
  unfold Py.strip. rewrite lstrip_nl.
  destruct (Py.lstrip s) as [|c t]; [reflexivity | apply rstrip_nl].
Qed.

Lemma lstrip_starts (s : string) :
  match Py.lstrip s with
  | EmptyString => True
  | String c _ => Py.isspace c = false
  end.
Proof.
  induction s as [|c s IH]; [exact I|]. cbn [Py.lstrip].
  destruct (Py.isspace c) eqn:E; [exact IH | exact E].
Qed.

Lemma rstrip_starts (s : string) :
  match s, Py.rstrip s with
  | String c _, String c' _ => c' = c
  | _, _ => True
  end.
Proof.
  destruct s as [|c s]; [exact I|]. cbn [Py.rstrip].
  destruct (Py.rstrip s); [destruct (Py.isspace c)|]; trivial.
Qed.

(** A stripped string does not start with white space. *)
Lemma strip_starts (s : string) :
  match Py.strip s with
  | EmptyString => True
  | String c _ => Py.isspace c = false
  end.
Proof.
  unfold Py.strip. pose proof (lstrip_starts s) as Hl.
  pose proof (rstrip_starts (Py.lstrip s)) as Hr.
  destruct (Py.lstrip s) as [|c t]; [exact I|].
  destruct (Py.rstrip (String c t)); [exact I | now subst].
Qed.

Lemma split1_inv (x : ascii) (s a b : string) :
  Py.split1 x s = Some (a, b) ->
  s = a +:+ String x b /\ Py.contains x a = false.
Proof.
  revert a. induction s as [|c s IH]; intros a; [discriminate|].
  cbn [Py.split1]. destruct (Ascii.eqb c x) eqn:E.
  - intros [= <- <-]. apply Ascii.eqb_eq in E. now subst.
  - destruct (Py.split1 x s) as [[a' b']|]; [|discriminate].
    intros [= <- <-]. destruct (IH a' eq_refl) as [-> Hc].
    cbn [Py.contains String.append]. now rewrite E, Hc.
Qed.

Lemma lstrip_prefix (a b : string) :
  match a +:+ b with
  | EmptyString => True
  | String c _ => Py.isspace c = false
  end ->
  Py.lstrip a = a.
Proof.
  destruct a as [|c a]; [reflexivity|]. cbn [String.append Py.lstrip].
  now intros ->.
Qed.

Lemma lstrip_before_bar (a b : string) :
  Py.lstrip a = a -> Py.lstrip (a +:+ String "|" b) = a +:+ String "|" b.
Proof.
  destruct a as [|c a]; [reflexivity|]. cbn [String.append Py.lstrip].
  destruct (Py.isspace c); [|reflexivity].
  intros E. exfalso.
  assert (Hlen : forall s, (String.length (Py.lstrip s) <= String.length s)%nat).
  { induction s as [|x s IHs]; simpl; [lia|]. destruct (Py.isspace x); simpl; lia. }
  specialize (Hlen a). rewrite E in Hlen. simpl in Hlen. lia.
Qed.

(** Every line that [readlines] gives is free of line breaks, up to the
    line feed at its end. *)
Lemma readlines_inline (text : string) :
  Forall (fun l => exists body,
            Py.all_chars inline body = true /\ (l = body \/ l = body +:+ Py.nl))
         (Py.readlines text).
Proof.
  assert (Hnl : exists body, Py.all_chars inline body = true
                  /\ (Py.nl = body \/ Py.nl = body +:+ Py.nl)).
  { exists EmptyString. split; [reflexivity | now right]. }
  induction text as [|c t IH]; [constructor|].
  cbn [Py.readlines].
  destruct (Ascii.eqb c "010") eqn:Elf; [now constructor|].
  destruct (Ascii.eqb c "013") eqn:Ecr.
  - destruct t as [|c' t']; [now repeat constructor|].
    destruct (Ascii.eqb c' "010") eqn:E'; [|now constructor].
    constructor; [exact Hnl|].
    cbn [Py.readlines] in IH. rewrite E' in IH.
    now apply Forall_cons_iff in IH as [_ IH].
  - destruct (Py.readlines t) as [|l r].
    + constructor; [|constructor]. exists (String c EmptyString). split; [|now left].
      cbn. unfold inline. now rewrite Elf, Ecr.
    + apply Forall_cons_iff in IH as [(body & Hb & Hl) IH].
      constructor; [|exact IH]. exists (String c body). split.
      * cbn [Py.all_chars]. rewrite Hb. unfold inline. now rewrite Elf, Ecr.
      * destruct Hl as [-> | ->]; [now left | now right].
Qed.

Lemma inline_contains (s : string) :
  Py.all_chars inline s = true ->
  Py.contains "010" s = false /\ Py.contains "013" s = false.
Proof.
  induction s as [|c s IH]; [now split|]. cbn [Py.all_chars Py.contains].
  intros Hs. apply andb_true_iff in Hs as [Hc Hs].
  destruct (IH Hs) as [-> ->]. unfold inline in Hc.
  apply andb_true_iff in Hc as [H1 H2]. apply negb_true_iff in H1, H2.
  now rewrite H1, H2.
Qed.

(** The name that a line of a file gives is clean. *)
Lemma loaded_name_clean (text line name cit : string) :
  In line (Py.readlines text) ->
  Py.split1 "|" (Py.strip line) = Some (name, cit) ->
  clean_name name.
Proof.
  intros Hin Hsplit.
  pose proof (readlines_inline text) as Hall.
  rewrite List.Forall_forall in Hall. destruct (Hall line Hin) as (body & Hb & Hl).
  assert (Hstrip : Py.strip line = Py.strip body).
  { destruct Hl as [-> | ->]; [reflexivity | apply strip_nl]. }
  apply split1_inv in Hsplit as [Hs Hbar].
  assert (Hinl : Py.all_chars inline name = true).
  { assert (H : Py.all_chars inline (Py.strip line) = true).
    { rewrite Hstrip. unfold Py.strip. now apply all_chars_rstrip, all_chars_lstrip. }
    rewrite Hs, all_chars_app in H. now apply andb_true_iff in H as [H _]. }
  destruct (inline_contains _ Hinl) as [Hlf Hcr].
  repeat split; try assumption.
  apply (lstrip_prefix name (String "|" cit)). rewrite <- Hs. apply strip_starts.
Qed.

(* ================================================================== *)
(** * What loading gives and what saving keeps *)
(* ================================================================== *)

Lemma in_set (k name : string) (v c : Z) (d : papers_t) :
  In (k, v) (Dict.set name c d) -> (k, v) = (name, c) \/ In (k, v) d.
Proof.
  induction d as [|[k0 v0] d IH]; cbn.
  - intros [E|[]]. now left.
  - destruct (decide (name = k0)); cbn; intros [E|Hi]; auto.
    destruct (IH Hi); auto.
Qed.

Lemma storable_set (name : string) (c : Z) (d : papers_t) :
  storable d -> clean_name name -> 0 <= c -> storable (Dict.set name c d).
Proof.
  intros [Hwf Hok] Hname Hc. split; [now apply set_wf|].
  intros k v Hi. apply in_set in Hi as [[= -> ->]|Hi]; [now split | now apply Hok].
Qed.

Lemma with_heap_same (w : world) (r : loc) (d : papers_t) :
  heap w !! r = Some d -> with_heap (<[r := d]> (heap w)) w = w.
Proof.
  intros Hr. destruct w as [h i o fs ro]. unfold with_heap. cbn in *.
  f_equal. now apply insert_id.
Qed.

Section Loading.
Context `{Runtime}.

(** One turn of the loop of [load_papers_from_txt] touches the new
    dictionary only and keeps it storable, also when it raises. *)
Lemma load_line_keeps (text line : string) (w w' : world) (r : loc)
    (d : papers_t) (res : Py.exn + unit) :
  In line (Py.readlines text) ->
  heap w !! r = Some d -> storable d ->
  load_line r line w = (res, w') ->
  exists d', w' = with_heap (<[r := d']> (heap w)) w /\ storable d'.
Proof.
  intros Hin Hr Hd. unfold load_line.
  assert (Hsame : exists d', w = with_heap (<[r := d']> (heap w)) w /\ storable d').
  { exists d. split; [symmetry; now apply with_heap_same | exact Hd]. }
  destruct (Py.contains "|" line); [|intros [= _ <-]; exact Hsame].
  destruct (Py.split1 "|" (Py.strip line)) as [[name cit]|] eqn:Hsplit;
    [|intros [= _ <-]; exact Hsame].
  destruct (Py.isdigit cit); [|intros [= _ <-]; exact Hsame].
  unfold bind, lift. destruct (Py.int cit) as [e|n] eqn:Hn;
    [intros [= _ <-]; exact Hsame|].
  unfold setitem, bind, deref, store. rewrite Hr. intros [= _ <-].
  exists (Dict.set name n d). split; [reflexivity|].
  apply storable_set; [exact Hd | | now apply (int_nonneg cit)].
  now apply (loaded_name_clean text line name cit).
Qed.

Lemma load_lines_keep (text : string) (lines : list string) :
  forall (w w' : world) (r : loc) (d : papers_t) (res : Py.exn + unit),
  Forall (fun l => In l (Py.readlines text)) lines ->
  heap w !! r = Some d -> storable d ->
  for_each lines (load_line r) w = (res, w') ->
  exists d', w' = with_heap (<[r := d']> (heap w)) w /\ storable d'.
Proof.
  induction lines as [|line lines IH]; intros w w' r d res Hall Hr Hd.
  - cbn. intros [= _ <-]. exists d. split; [symmetry; now apply with_heap_same | exact Hd].
  - apply Forall_cons_iff in Hall as [Hline Hall]. cbn [for_each]. intros E.
    apply bind_inv in E as [(e & E & _)|([] & w1 & E & Erest)].
    + now apply (load_line_keeps text line w w' r d (inl e)).
    + destruct (load_line_keeps text line w w1 r d (inr tt) Hline Hr Hd E)
        as (d1 & -> & Hd1).
      destruct (IH _ w' r d1 res Hall (lookup_insert_eq _ _ _) Hd1 Erest)
        as (d2 & -> & Hd2).
      exists d2. split; [|exact Hd2].
      cbn [heap with_heap]. now rewrite insert_insert_eq.
Qed.

Lemma load_papers_returns_storable (filename : string) (w : world) :
  exists (r : loc) (d : papers_t) (out : list string),
    load_papers_from_txt filename w
    = (inr r, with_stdout (stdout w ++ out) (with_heap (<[r := d]> (heap w)) w))
    /\ heap w !! r = None
    /\ storable d
    /\ (files w !! filename = None ->
        d = [] /\ out = [("File does not exist." +:+ Py.nl) +:+ Py.nl]).
Proof.
  set (r := fresh (dom (heap w))).
  assert (Hfresh : heap w !! r = None) by apply not_elem_of_dom, is_fresh.
  assert (Hempty : storable []).
  { split; [constructor | intros name cit []]. }
  unfold load_papers_from_txt. unfold bind at 1, alloc. fold r.
  cbn [files with_heap].
  assert (Hall : forall text, Forall (fun l => In l (Py.readlines text)) (Py.readlines text)).
  { intros text. apply List.Forall_forall. auto. }
  destruct (files w !! filename) as [text|] eqn:Hf.
  - unfold try_except. unfold bind at 1. cbv beta.
    match goal with
    | |- context [bind (for_each ?l ?f) ?k ?w0] =>
        destruct (bind (for_each l f) k w0) as [res w1] eqn:Erun
    end.
    assert (Hw1 : exists d out, storable d /\
                    w1 = with_stdout (stdout w ++ out) (with_heap (<[r := d]> (heap w)) w)).
    { apply bind_inv in Erun as [(e & E & _)|([] & w2 & E & Ep)].
      - destruct (load_lines_keep text _ _ _ r [] _ (Hall text)
                    (lookup_insert_eq _ _ _) Hempty E) as (d & -> & Hd).
        exists d, []. split; [exact Hd|].
        unfold with_stdout, with_heap. cbn [heap stdin stdout files readonly].
        rewrite app_nil_r. f_equal. apply insert_insert_eq.
      - destruct (load_lines_keep text _ _ _ r [] _ (Hall text)
                    (lookup_insert_eq _ _ _) Hempty E) as (d & -> & Hd).
        unfold print in Ep. injection Ep as _ Ew. rewrite <- Ew.
        exists d, [("Papers loaded from '" +:+ filename +:+ "' successfully." +:+ Py.nl)
                   +:+ Py.nl].
        split; [exact Hd|].
        unfold with_stdout, with_heap. cbn [heap stdin stdout files readonly].
        f_equal. apply insert_insert_eq. }
    destruct Hw1 as (d & out & Hd & ->).
    destruct res as [e|[]].
    + exists r, d, (out ++ [("Error loading file: " +:+ exn_text e +:+ Py.nl) +:+ Py.nl]).
      unfold bind, print, ret. cbn [stdout with_stdout]. rewrite app_assoc.
      split; [reflexivity|]. split; [exact Hfresh|]. split; [exact Hd|]. discriminate.
    + exists r, d, out. unfold bind, ret.
      split; [reflexivity|]. split; [exact Hfresh|]. split; [exact Hd|]. discriminate.
  - exists r, [], [("File does not exist." +:+ Py.nl) +:+ Py.nl].
    unfold bind, print, ret.
    split; [reflexivity|]. split; [exact Hfresh|]. split; [exact Hempty|]. now split.
Qed.

(** [load_papers_from_txt] always returns: it gives a new dictionary and
    changes nothing else but the console; the dictionary has distinct
    names without '|', line break or leading white space, and no
    negative count; for a path that does not exist it is empty. *)
Theorem load_papers_always_returns (filename : string) (w : world) :
  exists (r : loc) (d : papers_t) (w' : world),
    load_papers_from_txt filename w = (inr r, w')
    /\ heap w !! r = None
    /\ heap w' = <[r := d]> (heap w)
    /\ files w' = files w /\ stdin w' = stdin w
    /\ storable d
    /\ (files w !! filename = None ->
        d = [] /\ stdout w' = stdout w ++ [("File does not exist." +:+ Py.nl) +:+ Py.nl]).
Proof.
  destruct (load_papers_returns_storable filename w) as (r & d & out & E & Hnew & Hd & Hmiss).
  exists r, d. eexists. split; [exact E|].
  split; [exact Hnew|]. split; [reflexivity|]. split; [reflexivity|].
  split; [reflexivity|]. split; [exact Hd|].
  intros Hnone. destruct (Hmiss Hnone) as [-> ->]. now split.
Qed.

Lemma entry_line_inline_clean (name : string) (cit : Z) :
  clean_name name -> 0 <= cit ->
  Py.all_chars inline (name +:+ "|" +:+ Py.str cit) = true.
Proof.
  intros (_ & Hlf & Hcr & _) Hcit.
  destruct (str_decimal cit Hcit) as [_ Hdec].
  rewrite !all_chars_app.
  apply andb_true_iff; split; [|apply andb_true_iff; split].
  - apply contains_all_chars in Hlf, Hcr. clear -Hlf Hcr.
    induction name as [|c s IH]; [reflexivity|]. cbn [Py.all_chars] in *.
    apply andb_true_iff in Hlf as [Hl Hlf], Hcr as [Hc Hcr].
    unfold inline at 1. now rewrite Hl, Hc, IH.
  - reflexivity.
  - revert Hdec. apply all_chars_impl, decimal_inline.
Qed.

Lemma entry_line_split (name : string) (cit : Z) (text : string) :
  entry_line (name, cit) +:+ text = (name +:+ "|" +:+ Py.str cit) +:+ Py.nl +:+ text.
Proof. unfold entry_line. cbn [fst snd]. now rewrite !sapp_assoc. Qed.

(** The file that is saved has one line for each entry. *)
Lemma readlines_saved_text (d : papers_t) :
  (forall name cit, In (name, cit) d -> clean_name name /\ 0 <= cit) ->
  Py.readlines (saved_text d) = map entry_line d.
Proof.
  induction d as [|[name cit] d IH]; intros Hok; [reflexivity|].
  destruct (Hok name cit) as [Hname Hcit]; [now left|].
  cbn [saved_text fold_right map]. fold (saved_text d).
  rewrite entry_line_split, readlines_line by now apply entry_line_inline_clean.
  rewrite IH by (intros n c Hi; apply Hok; now right).
  f_equal. unfold entry_line. cbn [fst snd]. now rewrite !sapp_assoc.
Qed.

Lemma load_line_entry_clean (w : world) (r : loc) (acc : papers_t)
    (name : string) (cit : Z) :
  heap w !! r = Some acc -> clean_name name -> 0 <= cit ->
  load_line r (entry_line (name, cit)) w
  = (inr tt, with_heap (<[r := Dict.set name cit acc]> (heap w)) w).
Proof.
  intros Hr (Hbar & Hlf & Hcr & Hls) Hcit.
  destruct (str_decimal cit Hcit) as [Hsne Hdec].
  unfold load_line, entry_line. cbn [fst snd].
  change (name +:+ "|" +:+ Py.str cit +:+ Py.nl)
    with (name +:+ String "|" (Py.str cit +:+ Py.nl)).
  rewrite contains_app_sep.
  assert (Hstrip : Py.strip (name +:+ String "|" (Py.str cit +:+ Py.nl))
                   = name +:+ String "|" (Py.str cit)).
  { unfold Py.strip. rewrite lstrip_before_bar by assumption.
    assert (Hd : Py.rstrip (Py.str cit +:+ Py.nl) = Py.str cit).
    { apply rstrip_line. revert Hdec. apply all_chars_impl, decimal_not_space. }
    change (name +:+ String "|" (Py.str cit +:+ Py.nl))
      with (name +:+ "|" +:+ (Py.str cit +:+ Py.nl)).
    rewrite <- sapp_assoc, rstrip_app, Hd, sapp_assoc; [reflexivity|].
    now rewrite Hd. }
  rewrite Hstrip, (split1_app _ _ _ Hbar), (isdigit_decimal _ Hsne Hdec).
  unfold lift, bind, setitem, bind. rewrite (int_str cit Hcit).
  now rewrite (deref_run r acc w Hr).
Qed.

Lemma load_lines_clean (d : papers_t) : forall (w : world) (r : loc) (acc : papers_t),
  heap w !! r = Some acc ->
  List.NoDup (Dict.keys (acc ++ d)) ->
  (forall name cit, In (name, cit) d -> clean_name name /\ 0 <= cit) ->
  for_each (map entry_line d) (load_line r) w
  = (inr tt, with_heap (<[r := acc ++ d]> (heap w)) w).
Proof.
  induction d as [|[name cit] d IH]; intros w r acc Hr Hnd Hok.
  - cbn. unfold ret. rewrite app_nil_r. f_equal. symmetry. now apply with_heap_same.
  - destruct (Hok name cit) as [Hname Hcit]; [now left|].
    cbn [map for_each].
    rewrite (bind_run _ _ _ _ _ (load_line_entry_clean w r acc name cit Hr Hname Hcit)).
    assert (Hnew : ~ In name (Dict.keys acc)).
    { unfold Dict.keys in *. rewrite map_app in Hnd. cbn [map fst] in Hnd.
      apply List.NoDup_remove_2 in Hnd. intros Hi. apply Hnd, in_or_app. now left. }
    rewrite (set_new name cit acc Hnew).
    rewrite (IH _ r (acc ++ [(name, cit)])).
    + cbn [heap with_heap]. rewrite insert_insert_eq, <- app_assoc. reflexivity.
    + cbn [heap with_heap]. apply lookup_insert_eq.
    + now rewrite <- app_assoc.
    + intros n c Hi. apply Hok. now right.
Qed.

Lemma load_run_clean (w : world) (d : papers_t) (filename : string) :
  files w !! filename = Some (saved_text d) -> storable d ->
  let r := fresh (dom (heap w)) in
  load_papers_from_txt filename w
  = (inr r,
     with_stdout
       (stdout w ++ [("Papers loaded from '" +:+ filename +:+ "' successfully."
                      +:+ Py.nl) +:+ Py.nl])
       (with_heap (<[r := d]> (heap w)) w)).
Proof.
  intros Hf [Hwf Hok] r.
  pose proof (load_lines_clean d (with_heap (<[r := []]> (heap w)) w) r []
                (lookup_insert_eq _ _ _) Hwf Hok) as Hload.
  unfold load_papers_from_txt. unfold bind at 1, alloc. fold r.
  cbn [files with_heap]. rewrite Hf, (readlines_saved_text d Hok).
  unfold try_except, bind.
  match goal with
  | |- context [for_each ?l ?f ?w0] =>
      replace (for_each l f w0) with (inr tt : Py.exn + unit,
        with_heap (<[r := [] ++ d]> (heap (with_heap (<[r := []]> (heap w)) w)))
                  (with_heap (<[r := []]> (heap w)) w))
        by (symmetry; exact Hload)
  end.
  unfold print, ret.
  cbn [heap with_heap stdin stdout files readonly with_stdout app].
  now rewrite insert_insert_eq.
Qed.

(** Whatever [load_papers_from_txt] has loaded, from whatever file,
    comes back unchanged when it is saved to a path that can be written
    and loaded again: same names, same counts, same order. *)
Theorem load_save_load (w w1 : world) (r : loc) (source target : string) :
  load_papers_from_txt source w = (inr r, w1) ->
  target ∉ readonly w ->
  exists (d : papers_t) (w2 w3 : world) (r' : loc),
    heap w1 !! r = Some d
    /\ save_papers_to_txt r target w1 = (inr tt, w2)
    /\ load_papers_from_txt target w2 = (inr r', w3)
    /\ heap w2 !! r' = None
    /\ heap w3 !! r' = Some d
    /\ heap w3 !! r = Some d.
Proof.
  intros Hload Hro.
  destruct (load_papers_returns_storable source w) as (r0 & d & out & E & Hnew & Hd & _).
  rewrite Hload in E. injection E as Er Ew. subst r0 w1.
  set (w1 := with_stdout _ _).
  assert (Hr : heap w1 !! r = Some d) by apply lookup_insert_eq.
  assert (Hro' : target ∉ readonly w1) by exact Hro.
  pose proof (save_run w1 r d target Hr Hro') as Hsave.
  set (w2 := with_stdout _ _) in Hsave.
  pose proof (load_run_clean w2 d target (lookup_insert_eq _ _ _) Hd) as Hl.
  cbv zeta in Hl.
  assert (Hfresh : heap w1 !! fresh (dom (heap w1)) = None)
    by apply not_elem_of_dom, is_fresh.
  exists d, w2. eexists. exists (fresh (dom (heap w1))).
  split; [exact Hr|]. split; [exact Hsave|]. split; [exact Hl|].
  split; [exact Hfresh|].
  cbn [heap with_heap with_stdout with_files w2]. split.
  - apply lookup_insert_eq.
  - rewrite lookup_insert_ne by congruence. exact Hr.
Qed.


End Loading.

(** A file written by hand, with a line that is not an entry and a name
    typed with blanks: what is loaded from it survives saving and
    loading. *)
Lemma load_save_load_witness :
  let w := World ∅ [] [] {[ "in.txt" := "  X |3" +:+ Py.nl +:+ "no entry" +:+ Py.nl
                                         +:+ "Y|4" ]} ∅ in
  exists (d : papers_t) (w1 w2 w3 : world) (r r' : loc),
    load_papers_from_txt (H := fixed_runtime) "in.txt" w = (inr r, w1)
    /\ d = [("X ", 3); ("Y", 4)]
    /\ heap w1 !! r = Some d
    /\ save_papers_to_txt (H := fixed_runtime) r "out.txt" w1 = (inr tt, w2)
    /\ load_papers_from_txt (H := fixed_runtime) "out.txt" w2 = (inr r', w3)
    /\ heap w2 !! r' = None
    /\ heap w3 !! r' = Some d
    /\ heap w3 !! r = Some d.
Proof.
  intros w.
  pose (res := load_papers_from_txt (H := fixed_runtime) "in.txt" w).
  assert (Hload : load_papers_from_txt (H := fixed_runtime) "in.txt" w
                  = (inr 1%positive, snd res)) by (vm_compute; reflexivity).
  destruct (load_save_load (H := fixed_runtime) w (snd res) 1 "in.txt" "out.txt"
              Hload (not_elem_of_empty _))
    as (d & w2 & w3 & r' & Hd & Hs & Hl & Hn & Hd3 & Hd1).
  exists d, (snd res), w2, w3, 1%positive, r'.
  split; [exact Hload|]. split.
  - assert (E : heap (snd res) !! 1%positive = Some [("X ", 3); ("Y", 4)])
      by (vm_compute; reflexivity).
    pose proof (eq_trans (eq_sym Hd) E) as E'. now injection E' as ->.
  - repeat (split; [assumption|]). assumption.
Defined.


(* ================================================================== *)
(** * The report of a collection that is not empty, and the top of the
      sorted list *)
(* ================================================================== *)

Lemma fold_max_spec (t : list Z) : forall x : Z,
  (fold_left Z.max t x = x \/ In (fold_left Z.max t x) t)
  /\ x <= fold_left Z.max t x
  /\ forall y, In y t -> y <= fold_left Z.max t x.
Proof.
  induction t as [|a t IH]; intros x; cbn [fold_left].
  - split; [now left|]. split; [lia|]. intros y [].
  - destruct (IH (Z.max x a)) as (Hin & Hle & Hall). split; [|split].
    + destruct Hin as [E|Hin]; [|right; now right].
      destruct (Z.max_spec x a) as [[_ Em]|[_ Em]]; rewrite Em in *.
      * right. left. now rewrite E.
      * now left.
    + lia.
    + intros y [<-|Hy]; [lia | now apply Hall].
Qed.

Lemma fold_min_spec (t : list Z) : forall x : Z,
  (fold_left Z.min t x = x \/ In (fold_left Z.min t x) t)
  /\ fold_left Z.min t x <= x
  /\ forall y, In y t -> fold_left Z.min t x <= y.
Proof.
  induction t as [|a t IH]; intros x; cbn [fold_left].
  - split; [now left|]. split; [lia|]. intros y [].
  - destruct (IH (Z.min x a)) as (Hin & Hle & Hall). split; [|split].
    + destruct Hin as [E|Hin]; [|right; now right].
      destruct (Z.min_spec x a) as [[_ Em]|[_ Em]]; rewrite Em in *.
      * now left.
      * right. left. now rewrite E.
    + lia.
    + intros y [<-|Hy]; [lia | now apply Hall].
Qed.

(** [max] returns an element that no element exceeds. *)
Lemma max_spec (l : list Z) (m : Z) :
  Py.max l = inr m <-> In m l /\ forall y, In y l -> y <= m.
Proof.
  destruct l as [|x t]; cbn [Py.max].
  - split; [discriminate | intros [[] _]].
  - destruct (fold_max_spec t x) as (Hin & Hle & Hall). split.
    + intros [= <-]. split.
      * destruct Hin as [->|Hin]; [now left | now right].
      * intros y [<-|Hy]; [exact Hle | now apply Hall].
    + intros [Hm Hmax]. f_equal. apply Z.le_antisymm.
      * apply Hmax. destruct Hin as [->|Hin]; [now left | now right].
      * destruct Hm as [<-|Hm]; [exact Hle | now apply Hall].
Qed.

Lemma min_spec (l : list Z) (m : Z) :
  Py.min l = inr m <-> In m l /\ forall y, In y l -> m <= y.
Proof.
  destruct l as [|x t]; cbn [Py.min].
  - split; [discriminate | intros [[] _]].
  - destruct (fold_min_spec t x) as (Hin & Hle & Hall). split.
    + intros [= <-]. split.
      * destruct Hin as [->|Hin]; [now left | now right].
      * intros y [<-|Hy]; [exact Hle | now apply Hall].
    + intros [Hm Hmin]. f_equal. apply Z.le_antisymm.
      * destruct Hm as [<-|Hm]; [exact Hle | now apply Hall].
      * apply Hmin. destruct Hin as [->|Hin]; [now left | now right].
Qed.

Lemma strongly_sorted_app {A} (R : A -> A -> Prop) (l1 l2 : list A) :
  StronglySorted R (l1 ++ l2) ->
  forall a b, In a l1 -> In b l2 -> R a b.
Proof.
  induction l1 as [|x l1 IH]; intros Hs a b Ha Hb; [destruct Ha|].
  cbn [app] in Hs. apply StronglySorted_inv in Hs as [Hs Hx].
  destruct Ha as [<-|Ha].
  - rewrite List.Forall_forall in Hx. apply Hx, in_or_app. now right.
  - now apply IH.
Qed.

Lemma by_citations_strongly_sorted (d : papers_t) :
  StronglySorted (fun a b : string * Z => snd b <= snd a) (sorted_items "citations" d).
Proof.
  apply Sorted_StronglySorted; [intros a b c; lia|].
  pose proof (isort_sorted (precedes "citations") (precedes_total "citations") d) as Hs.
  unfold sorted_items. induction Hs as [|a l Hs IH Hd]; constructor; [exact IH|].
  destruct Hd as [|b l Hab]; constructor.
  unfold precedes in Hab. cbn [String.eqb Ascii.eqb Bool.eqb] in Hab.
  now apply Z.leb_le.
Qed.

(** The counts of the sorted collection are the list that [h_index]
    scans. *)
Lemma values_insert (x : string * Z) (l : list (string * Z)) :
  map snd (Py.insert (precedes "citations") x l)
  = Py.insert (fun a b : Z => b <=? a) (snd x) (map snd l).
Proof.
  induction l as [|y l IH]; [reflexivity|]. cbn [Py.insert map].
  unfold precedes at 1. cbn [String.eqb Ascii.eqb Bool.eqb].
  destruct (snd y <=? snd x); [reflexivity|]. cbn [map]. now rewrite IH.
Qed.

Lemma values_sorted_items (d : papers_t) :
  Dict.values (sorted_items "citations" d)
  = Py.sorted (fun c : Z => c) Z.leb true (Dict.values d).
Proof.
  unfold Dict.values, sorted_items, Py.sorted, Py.isort.
  induction d as [|x d IH]; [reflexivity|].
  cbn [fold_right map]. now rewrite values_insert, IH.
Qed.

(** The dictionary that [get_sorted_papers] makes by citations: its
    counts are the list that [h_index] scans; its first entry holds what
    [max] returns and its last entry what [min] returns; and every one of
    its first [n] entries, the "top n" of the menu, has at least as many
    citations as every entry after them. *)
Theorem most_cited_first (w : world) (papers : loc) (d : papers_t) :
  heap w !! papers = Some d -> Dict.wf d ->
  exists (r : loc) (s : papers_t),
    get_sorted_papers papers "citations" w
      = (inr r, with_heap (<[r := s]> (heap w)) w)
    /\ Dict.values s = Py.sorted (fun c : Z => c) Z.leb true (Dict.values d)
    /\ h_index d = h_loop 1 0 (Dict.values s)
    /\ (forall name c rest, s = (name, c) :: rest -> Py.max (Dict.values d) = inr c)
    /\ (forall name c rest, s = rest ++ [(name, c)] -> Py.min (Dict.values d) = inr c)
    /\ (forall (n : Z) a b, 0 <= n ->
          In a (take n (Dict.items s)) ->
          In b (skipn (Z.to_nat n) (Dict.items s)) -> snd b <= snd a).
Proof.
  intros Hd Hwf.
  destruct (get_sorted_papers_known w papers d "citations" Hd Hwf (or_introl eq_refl))
    as (r & Hr & _).
  exists r, (sorted_items "citations" d).
  pose proof (by_citations_strongly_sorted d) as Hs.
  assert (Hperm : Permutation (sorted_items "citations" d) d)
    by apply isort_perm.
  assert (Hval : forall c, In c (Dict.values d) ->
            exists name, In (name, c) (sorted_items "citations" d)).
  { intros c Hc. unfold Dict.values in Hc. apply in_map_iff in Hc as ([name c'] & <- & Hin).
    exists name. now apply (Permutation_in _ (Permutation_sym Hperm)). }
  assert (Hin : forall name c, In (name, c) (sorted_items "citations" d) ->
            In c (Dict.values d)).
  { intros name c Hc. apply (Permutation_in _ Hperm) in Hc.
    unfold Dict.values. apply in_map_iff. now exists (name, c). }
  split; [exact Hr|]. split; [apply values_sorted_items|].
  split; [unfold h_index, h_loop; now rewrite values_sorted_items|].
  split; [|split].
  - intros name c rest E. apply max_spec. split.
    + apply (Hin name). rewrite E. now left.
    + intros y Hy. destruct (Hval y Hy) as (ny & Hny).
      rewrite E in Hny, Hs. destruct Hny as [[= _ <-]|Hny]; [lia|].
      apply StronglySorted_inv in Hs as [_ Hall].
      rewrite List.Forall_forall in Hall. exact (Hall _ Hny).
  - intros name c rest E. apply min_spec. split.
    + apply (Hin name). rewrite E. apply in_or_app. right. now left.
    + intros y Hy. destruct (Hval y Hy) as (ny & Hny).
      rewrite E in Hny, Hs. apply in_app_or in Hny as [Hny|[[= _ <-]|[]]]; [|lia].
      exact (strongly_sorted_app _ _ _ Hs _ _ Hny (or_introl eq_refl)).
  - intros n a b Hn Ha Hb. unfold take in Ha.
    destruct (n <? 0) eqn:E; [apply Z.ltb_lt in E; lia|].
    unfold Dict.items in *.
    rewrite <- (firstn_skipn (Z.to_nat n) (sorted_items "citations" d)) in Hs.
    exact (strongly_sorted_app _ _ _ Hs _ _ Ha Hb).
Qed.

(** The sorted list of two papers. *)
Lemma most_cited_first_witness :
  exists (r : loc) (w' : world),
    get_sorted_papers 1 "citations" (world_of [("B", 0); ("Paper A", 12)] [])
      = (inr r, w')
    /\ Py.max [0; 12] = inr 12.
Proof.
  destruct (most_cited_first (world_of [("B", 0); ("Paper A", 12)] []) 1
              [("B", 0); ("Paper A", 12)] eq_refl)
    as (r & s & Hrun & _ & _ & Hmax & _).
  - repeat constructor; simpl; intuition discriminate.
  - exists r. eexists. split; [exact Hrun|]. reflexivity.
Defined.

Section ReportRuns.
Context `{Runtime}.





End ReportRuns.


(* ================================================================== *)
(** * What the computations leave as it was *)
(* ================================================================== *)

#[export] Instance input_left_frame : Frame input_left.
Proof.
  split; unfold input_left.
  - intros w. lia.
  - intros a b c. lia.
  - intros o w. cbn [stdin with_stdout]. lia.
  - intros line rest w E. rewrite E. cbn [stdin with_stdin List.length]. lia.
Qed.

#[export] Instance input_left_alloc : OverAlloc input_left.
Proof. intros d w. unfold input_left. cbn [stdin with_heap]. lia. Qed.

#[export] Instance input_left_heap : OverHeap input_left.
Proof. intros h w. unfold input_left. cbn [stdin with_heap]. lia. Qed.

#[export] Instance input_left_files : OverFiles input_left.
Proof. intros f w. unfold input_left. cbn [stdin with_files]. lia. Qed.

#[export] Instance same_files_frame : Frame same_files.
Proof.
  split; unfold same_files; try reflexivity.
  intros a b c E1 E2. now rewrite E2.
Qed.

#[export] Instance same_files_alloc : OverAlloc same_files.
Proof. intros d w. reflexivity. Qed.

#[export] Instance same_files_heap : OverHeap same_files.
Proof. intros h w. reflexivity. Qed.

#[export] Instance same_heap_frame : Frame same_heap.
Proof.
  split; unfold same_heap; try reflexivity.
  intros a b c E1 E2. now rewrite E2.
Qed.

#[export] Instance same_heap_files : OverFiles same_heap.
Proof. intros f w. reflexivity. Qed.

#[export] Instance same_object_frame (p : loc) : Frame (same_object p).
Proof.
  split; unfold same_object; try (intros; assumption).
  intros a b c E1 E2 d Hd. auto.
Qed.

#[export] Instance same_object_alloc (p : loc) : OverAlloc (same_object p).
Proof.
  intros d w d0 Hd. cbn [heap with_heap].
  rewrite lookup_insert_ne; [exact Hd|].
  intros <-. pose proof (is_fresh (dom (heap w))) as Hf.
  apply not_elem_of_dom in Hf. congruence.
Qed.

#[export] Instance same_object_files (p : loc) : OverFiles (same_object p).
Proof. intros f w d Hd. exact Hd. Qed.

Section Keeps.
Context (R : world -> world -> Prop) `{!Frame R}.

Lemma keeps_ret {A} (a : A) : keeps R (ret a).
Proof. intros w r w' [= _ <-]. apply frame_refl. Qed.

Lemma keeps_raise {A} (e : Py.exn) : keeps R (raise (A := A) e).
Proof. intros w r w' [= _ <-]. apply frame_refl. Qed.

Lemma keeps_lift {A} (x : Py.exn + A) : keeps R (lift x).
Proof. intros w r w' [= _ <-]. apply frame_refl. Qed.

Lemma keeps_bind {A B} (m : py A) (k : A -> py B) :
  keeps R m -> (forall a, keeps R (k a)) -> keeps R (bind m k).
Proof.
  intros Hm Hk w r w' E. unfold bind in E.
  destruct (m w) as [[e|a] w1] eqn:Em.
  - injection E as _ <-. exact (Hm _ _ _ Em).
  - exact (frame_trans _ _ _ (Hm _ _ _ Em) (Hk _ _ _ _ E)).
Qed.

Lemma keeps_try_except {A} (m : py A) (handler : Py.exn -> py A) :
  keeps R m -> (forall e, keeps R (handler e)) -> keeps R (try_except m handler).
Proof.
  intros Hm Hh w r w' E. unfold try_except in E.
  destruct (m w) as [[e|a] w1] eqn:Em.
  - exact (frame_trans _ _ _ (Hm _ _ _ Em) (Hh _ _ _ _ E)).
  - injection E as _ <-. exact (Hm _ _ _ Em).
Qed.

Lemma keeps_for_each {A} (l : list A) (body : A -> py unit) :
  (forall x, keeps R (body x)) -> keeps R (for_each l body).
Proof.
  intros Hb. induction l as [|x l IH]; cbn [for_each].
  - apply keeps_ret.
  - apply keeps_bind; [apply Hb | intros _; exact IH].
Qed.

Lemma keeps_print (s : string) : keeps R (print s).
Proof. intros w r w' [= _ <-]. apply frame_print. Qed.

Lemma keeps_input (prompt : string) : keeps R (input prompt).
Proof.
  intros w r w' E. unfold input in E.
  destruct (stdin w) as [|line rest] eqn:Hin; injection E as _ <-.
  - apply frame_print.
  - apply (frame_trans _ (with_stdout (stdout w ++ [prompt]) w));
      [apply frame_print | now apply (frame_read line)].
Qed.

Lemma keeps_deref (r : loc) : keeps R (deref r).
Proof.
  intros w x w' E. unfold deref in E.
  destruct (heap w !! r); injection E as _ <-; apply frame_refl.
Qed.

Lemma keeps_print_divider (char : string) (n : Z) : keeps R (print_divider char n).
Proof. apply keeps_print. Qed.

Lemma keeps_get_int_loop (prompt : string) (min_val max_val : option Z) (fuel : nat) :
  keeps R (get_int_loop fuel prompt min_val max_val).
Proof.
  induction fuel as [|fuel IH]; cbn [get_int_loop]; [apply keeps_raise|].
  apply keeps_bind; [apply keeps_input | intros line].
  destruct (Py.isdigit (Py.strip line)).
  - apply keeps_bind; [apply keeps_lift | intros val].
    destruct (_ || _); [|apply keeps_ret].
    apply keeps_bind; [apply keeps_print | intros _; exact IH].
  - apply keeps_bind; [apply keeps_print | intros _; exact IH].
Qed.

Lemma keeps_get_int (prompt : string) (min_val max_val : option Z) :
  keeps R (get_int prompt min_val max_val).
Proof. intros w r w' E. exact (keeps_get_int_loop _ _ _ _ _ _ _ E). Qed.

Lemma keeps_get_yes_no_loop (prompt : string) (fuel : nat) :
  keeps R (get_yes_no_loop fuel prompt).
Proof.
  induction fuel as [|fuel IH]; cbn [get_yes_no_loop]; [apply keeps_raise|].
  apply keeps_bind; [apply keeps_input | intros line].
  destruct (_ || _); [apply keeps_ret|].
  apply keeps_bind; [apply keeps_print | intros _; exact IH].
Qed.

Lemma keeps_get_yes_no (prompt : string) : keeps R (get_yes_no prompt).
Proof. intros w r w' E. exact (keeps_get_yes_no_loop _ _ _ _ _ E). Qed.

Lemma keeps_print_paper_list (papers : loc) (title : string) :
  keeps R (print_paper_list papers title).
Proof.
  unfold print_paper_list. apply keeps_bind; [apply keeps_deref | intros d].
  destruct (Dict.is_empty d); [apply keeps_print|].
  repeat (apply keeps_bind; [first [apply keeps_print | apply keeps_print_divider]
                            | intros _]).
  apply keeps_bind; [apply keeps_for_each; intros row; apply keeps_print | intros _].
  apply keeps_bind; [apply keeps_print_divider | intros _; apply keeps_print].
Qed.

Lemma keeps_index_menu (papers : loc) : keeps R (index_menu papers).
Proof.
  unfold index_menu.
  apply keeps_bind; [apply keeps_print_divider | intros _].
  apply keeps_bind; [apply keeps_deref | intros d].
  apply keeps_bind; [apply keeps_print | intros _].
  destruct (Dict.is_empty d); [apply keeps_print|].
  do 4 (apply keeps_bind; [apply keeps_print | intros _]).
  apply keeps_bind; [apply keeps_get_int | intros choice].
  repeat match goal with
         | |- keeps _ (if ?b then _ else _) => destruct b
         | |- keeps _ (bind _ _) => apply keeps_bind; [|intros ?]
         | |- keeps _ (deref _) => apply keeps_deref
         | |- keeps _ (print _) => apply keeps_print
         | |- keeps _ (ret _) => apply keeps_ret
         end.
Qed.

(** ** New objects *)

Lemma keeps_alloc `{!OverAlloc R} (d : papers_t) : keeps R (alloc d).
Proof. intros w r w' [= _ <-]. apply over_alloc. Qed.

Lemma keeps_get_sorted_papers `{!OverAlloc R} (papers : loc) (mode : string) :
  keeps R (get_sorted_papers papers mode).
Proof.
  unfold get_sorted_papers.
  destruct (String.eqb mode "citations");
    [apply keeps_bind; [apply keeps_deref | intros d; apply keeps_alloc]|].
  destruct (String.eqb mode "name");
    [apply keeps_bind; [apply keeps_deref | intros d; apply keeps_alloc]|].
  apply keeps_ret.
Qed.

(** ** The heap *)

Lemma keeps_store `{!OverHeap R} (r : loc) (d : papers_t) : keeps R (store r d).
Proof. intros w x w' [= _ <-]. apply over_heap. Qed.

Lemma keeps_setitem `{!OverHeap R} (r : loc) (k : string) (v : Z) :
  keeps R (setitem r k v).
Proof.
  unfold setitem. apply keeps_bind; [apply keeps_deref | intros d; apply keeps_store].
Qed.

Lemma keeps_delitem `{!OverHeap R} (r : loc) (k : string) : keeps R (delitem r k).
Proof.
  unfold delitem. apply keeps_bind; [apply keeps_deref | intros d].
  destruct (Dict.mem k d); [apply keeps_store | apply keeps_raise].
Qed.

Lemma keeps_pop `{!OverHeap R} (r : loc) (k : string) : keeps R (pop r k).
Proof.
  unfold pop. apply keeps_bind; [apply keeps_deref | intros d].
  destruct (Dict.get k d); [|apply keeps_raise].
  apply keeps_bind; [apply keeps_store | intros _; apply keeps_ret].
Qed.

Lemma keeps_edit_paper `{!OverHeap R} (papers : loc) : keeps R (edit_paper papers).
Proof.
  unfold edit_paper.
  apply keeps_bind; [apply keeps_deref | intros d].
  destruct (Dict.is_empty d); [apply keeps_print|].
  apply keeps_bind; [apply keeps_print_paper_list | intros _].
  apply keeps_bind; [apply keeps_input | intros line]. cbv zeta.
  apply keeps_bind; [apply keeps_deref | intros d'].
  destruct (negb _); [apply keeps_print|].
  apply keeps_bind; [apply keeps_input | intros answer].
  repeat match goal with
         | |- keeps _ (if ?b then _ else _) => destruct b
         | |- keeps _ (bind _ _) => apply keeps_bind; [|intros ?]
         | |- keeps _ (get_int _ _ _) => apply keeps_get_int
         | |- keeps _ (input _) => apply keeps_input
         | |- keeps _ (setitem _ _ _) => apply keeps_setitem
         | |- keeps _ (delitem _ _) => apply keeps_delitem
         | |- keeps _ (pop _ _) => apply keeps_pop
         | |- keeps _ (print _) => apply keeps_print
         | |- keeps _ (ret _) => apply keeps_ret
         end.
Qed.

Lemma keeps_get_paper_input_loop `{!OverHeap R} (papers : loc) (fuel : nat) :
  forall count, keeps R (get_paper_input_loop fuel papers count).
Proof.
  induction fuel as [|fuel IH]; intros count; cbn [get_paper_input_loop];
    [apply keeps_raise|].
  apply keeps_bind; [apply keeps_input | intros line]. cbv zeta.
  destruct (String.eqb _ _); [apply keeps_ret|].
  apply keeps_bind; [apply keeps_get_int | intros citations].
  apply keeps_bind; [apply keeps_setitem | intros _; apply IH].
Qed.

Lemma keeps_get_paper_input `{!OverHeap R} : keeps R get_paper_input.
Proof.
  unfold get_paper_input.
  apply keeps_bind; [intros w r w' [= _ <-]; apply over_heap | intros papers].
  apply keeps_bind; [apply keeps_print | intros _].
  apply keeps_bind; [|intros _; apply keeps_ret].
  intros w r w' E. exact (keeps_get_paper_input_loop _ _ _ _ _ _ E).
Qed.

(** ** The files *)

Lemma keeps_open_w `{!OverFiles R} (path : string) : keeps R (open_w path).
Proof.
  intros w r w' E. unfold open_w in E.
  destruct (bool_decide _); injection E as _ <-; [apply frame_refl | apply over_files].
Qed.

Lemma keeps_write `{!OverFiles R} (path s : string) : keeps R (write path s).
Proof.
  intros w r w' E. unfold write in E.
  destruct (files w !! path); injection E as _ <-; [apply over_files | apply frame_refl].
Qed.

End Keeps.

Section KeepsProgram.
Context `{Runtime} (R : world -> world -> Prop) `{!Frame R}.

Lemma keeps_generate_summary_report `{!OverAlloc R} (papers : loc) :
  keeps R (generate_summary_report papers).
Proof.
  unfold generate_summary_report.
  apply keeps_bind; [exact _ | apply keeps_deref; exact _ | intros d].
  destruct (Dict.is_empty d); [apply keeps_ret; exact _|].
  unfold report_body. cbv zeta.
  repeat (apply keeps_bind; [exact _ | apply keeps_lift; exact _ | intros ?]).
  apply keeps_bind; [exact _ | apply keeps_get_sorted_papers; exact _ | intros s].
  apply keeps_bind; [exact _ | apply keeps_deref; exact _ | intros sd].
  apply keeps_ret; exact _.
Qed.

Lemma keeps_save_papers_to_txt `{!OverFiles R} (papers : loc) (filename : string) :
  keeps R (save_papers_to_txt papers filename).
Proof.
  unfold save_papers_to_txt.
  apply keeps_try_except; [exact _ | | intros e; apply keeps_print; exact _].
  apply keeps_bind; [exact _ | apply keeps_open_w; exact _ | intros _].
  apply keeps_bind; [exact _ | apply keeps_deref; exact _ | intros d].
  apply keeps_bind; [exact _ | | intros _; apply keeps_print; exact _].
  apply keeps_for_each; [exact _ | intros nc; apply keeps_write; exact _].
Qed.

Lemma keeps_load_line `{!OverHeap R} (papers : loc) (line : string) :
  keeps R (load_line papers line).
Proof.
  unfold load_line. destruct (Py.contains _ _); [|apply keeps_ret; exact _].
  destruct (Py.split1 _ _) as [[name cit]|]; [|apply keeps_raise; exact _].
  destruct (Py.isdigit cit); [|apply keeps_ret; exact _].
  apply keeps_bind; [exact _ | apply keeps_lift; exact _ | intros n].
  apply keeps_setitem; exact _.
Qed.

Lemma keeps_load_papers_from_txt `{!OverHeap R} (filename : string) :
  keeps R (load_papers_from_txt filename).
Proof.
  unfold load_papers_from_txt.
  apply keeps_bind; [exact _ | | intros papers].
  { intros w r w' [= _ <-]. apply over_heap. }
  intros w r w' E. destruct (files w !! filename) as [text|].
  - revert w r w' E. apply keeps_bind; [exact _ | | intros _; apply keeps_ret; exact _].
    apply keeps_try_except; [exact _ | | intros e; apply keeps_print; exact _].
    apply keeps_bind; [exact _ | | intros _; apply keeps_print; exact _].
    apply keeps_for_each; [exact _ | intros line; apply keeps_load_line; exact _].
  - revert w r w' E.
    apply keeps_bind; [exact _ | apply keeps_print; exact _
                      | intros _; apply keeps_ret; exact _].
Qed.

End KeepsProgram.

(* ================================================================== *)
(** * Questions to the user *)
(* ================================================================== *)

Lemma yes_or_no (ans : string) :
  String.eqb ans "y" || String.eqb ans "n" = true -> ans = "y" \/ ans = "n".
Proof.
  intros E. apply orb_true_iff in E as [E|E]; apply String.eqb_eq in E; auto.
Qed.

Lemma get_yes_no_loop_result (prompt : string) (fuel : nat) :
  forall (w w' : world) (r : Py.exn + string),
  (List.length (stdin w) < fuel)%nat ->
  get_yes_no_loop fuel prompt w = (r, w') ->
  match r with
  | inr ans => (ans = "y" \/ ans = "n")
               /\ (List.length (stdin w') < List.length (stdin w))%nat
  | inl e => e = Py.EOFError /\ stdin w' = []
  end.
Proof.
  induction fuel as [|fuel IH]; intros w w' r Hfuel E; [lia|].
  cbn [get_yes_no_loop] in E. unfold bind at 1, input in E.
  destruct (stdin w) as [|line rest] eqn:Hin.
  - injection E as <- <-. split; [reflexivity | exact Hin].
  - destruct (_ || _) eqn:Hans.
    + injection E as <- <-. split; [now apply yes_or_no|].
      cbn [stdin with_stdin List.length]. lia.
    + unfold bind, print in E. apply IH in E.
      * cbn [stdin with_stdin with_stdout List.length] in *.
        destruct r as [e|ans]; [exact E|]. split; [apply E | lia].
      * cbn [stdin with_stdin with_stdout List.length] in *. lia.
Qed.

(** However [get_yes_no] ends, the heap and the files are as they were.
    What it returns is "y" or "n", and at least one line was read for it;
    the only exception is [EOFError], raised when every line of the input
    has been read and turned down. *)
Theorem get_yes_no_answers (prompt : string) (w w' : world) (r : Py.exn + string) :
  get_yes_no prompt w = (r, w') ->
  heap w' = heap w /\ files w' = files w
  /\ match r with
     | inr ans => (ans = "y" \/ ans = "n")
                  /\ (List.length (stdin w') < List.length (stdin w))%nat
     | inl e => e = Py.EOFError /\ stdin w' = []
     end.
Proof.
  intros E. split; [|split].
  - exact (keeps_get_yes_no same_heap prompt _ _ _ E).
  - exact (keeps_get_yes_no same_files prompt _ _ _ E).
  - unfold get_yes_no in E. apply get_yes_no_loop_result in E; [exact E | lia].
Qed.

(** An answer at a concrete input: "maybe" is turned down, " N " is
    taken as "n". *)
Lemma get_yes_no_answers_witness :
  exists w',
    get_yes_no "? " (world_of two_papers ["maybe"; " N "; "y"]) = (inr "n", w')
    /\ heap w' = heap (world_of two_papers []) /\ stdin w' = ["y"].
Proof.
  eexists. split; [vm_compute; reflexivity|].
  split; [|reflexivity].
  refine (proj1 (get_yes_no_answers "? " (world_of two_papers ["maybe"; " N "; "y"])
                   _ (inr "n") _)).
  vm_compute. reflexivity.
Defined.

Lemma get_yes_no_rejects (prompt line : string) (rest : list string) (w : world) :
  stdin w = line :: rest -> answer_rejected line = true ->
  get_yes_no prompt w
  = get_yes_no prompt
      (with_stdin rest
         (with_stdout (stdout w ++ [prompt; "Invalid input. Enter 'y' or 'n'." +:+ Py.nl])
            w)).
Proof.
  intros Hin Hrej. unfold get_yes_no at 1. rewrite Hin.
  cbn [List.length get_yes_no_loop].
  rewrite (bind_run _ _ _ _ _ (input_run prompt line rest w Hin)).
  unfold answer_rejected in Hrej. apply negb_true_iff in Hrej. rewrite Hrej.
  unfold bind, print. cbn [stdout with_stdout with_stdin].
  rewrite <- app_assoc. reflexivity.
Qed.

(** [get_yes_no] passes over every line that is neither "y" nor "n" once
    it is stripped and put in lower case, writing its prompt and a
    message for each, and returns the first line that is, in that form. *)
Theorem get_yes_no_first_answer (prompt : string) (bad : list string) :
  forall (w : world) (good : string) (rest : list string),
  stdin w = bad ++ good :: rest ->
  Forall (fun line => answer_rejected line = true) bad ->
  answer_rejected good = false ->
  get_yes_no prompt w
  = (inr (Py.lower (Py.strip good)),
     with_stdin rest
       (with_stdout
          (stdout w
           ++ flat_map (fun _ => [prompt; "Invalid input. Enter 'y' or 'n'." +:+ Py.nl]) bad
           ++ [prompt]) w)).
Proof.
  induction bad as [|line bad IH]; intros w good rest Hin Hbad Hgood.
  - unfold get_yes_no. rewrite Hin. cbn [List.length get_yes_no_loop].
    rewrite (bind_run _ _ _ _ _ (input_run prompt good rest w Hin)).
    unfold answer_rejected in Hgood. apply negb_false_iff in Hgood. now rewrite Hgood.
  - apply Forall_cons_iff in Hbad as [Hline Hbad].
    rewrite (get_yes_no_rejects prompt line (bad ++ good :: rest) w Hin Hline).
    rewrite (IH _ good rest); try assumption; [|reflexivity].
    cbn [stdout with_stdout with_stdin flat_map]. now rewrite <- !app_assoc.
Qed.

(** The same input, with what is written. *)
Lemma get_yes_no_first_answer_witness :
  get_yes_no "? " (world_of two_papers ["maybe"; " N "; "y"])
  = (inr "n",
     World {[ 1%positive := two_papers ]} ["y"]
       ["? "; "Invalid input. Enter 'y' or 'n'." +:+ Py.nl; "? "] ∅ ∅).
Proof.
  apply (get_yes_no_first_answer "? " ["maybe"]
           (world_of two_papers ["maybe"; " N "; "y"]) " N " ["y"]);
    [reflexivity | repeat constructor | reflexivity].
Defined.

(* ================================================================== *)
(** * Entering the papers *)
(* ================================================================== *)

Lemma paper_name_entered (count : Z) (line : string) :
  Py.lower (Py.strip line) <> "done" ->
  paper_name count (Py.strip line) <> EmptyString
  /\ Py.lower (paper_name count (Py.strip line)) <> "done".
Proof.
  intros Hdone. unfold paper_name.
  destruct (String.eqb (Py.strip line) EmptyString) eqn:E.
  - split; discriminate.
  - apply String.eqb_neq in E. now split.
Qed.

Lemma entered_set (name : string) (c : Z) (d : papers_t) :
  entered d -> 0 <= c -> name <> EmptyString -> Py.lower name <> "done" ->
  entered (Dict.set name c d).
Proof.
  intros [Hwf Hok] Hc Hn Hl. split; [now apply set_wf|].
  intros k v Hin. apply in_set in Hin as [[= -> ->]|Hin]; [auto | now apply Hok].
Qed.

Lemma insert_twice (h : gmap loc papers_t) (r : loc) (d d' : papers_t) :
  <[r := d']> (<[r := d]> h) = <[r := d']> h.
Proof. apply insert_insert_eq. Qed.

Lemma get_paper_input_loop_entered (papers : loc) (fuel : nat) :
  forall (count : Z) (w w' : world) (d : papers_t),
  get_paper_input_loop fuel papers count w = (inr tt, w') ->
  heap w !! papers = Some d -> entered d ->
  exists d', heap w' = <[papers := d']> (heap w) /\ entered d'.
Proof.
  induction fuel as [|fuel IH]; intros count w w' d E Hd Hok; [discriminate|].
  cbn [get_paper_input_loop] in E.
  apply bind_inv in E as [(e & _ & [=])|(line & w1 & Hline & E)].
  pose proof (keeps_input same_heap _ _ _ _ Hline) as Hh1. unfold same_heap in Hh1.
  cbv zeta in E. destruct (String.eqb _ "done") eqn:Hdone.
  - injection E as <-. exists d. split; [|exact Hok].
    rewrite Hh1. symmetry. now apply insert_id.
  - apply String.eqb_neq in Hdone.
    apply bind_inv in E as [(e & _ & [=])|(c & w2 & Hc & E)].
    unfold get_int in Hc. apply get_int_loop_returns in Hc as (H0 & _ & Hh2 & _).
    apply bind_inv in E as [(e & _ & [=])|([] & w3 & Hset & E)].
    unfold setitem, bind, deref, store in Hset.
    rewrite Hh2, Hh1, Hd in Hset. injection Hset as <-.
    destruct (paper_name_entered count line Hdone) as [Hn Hl].
    apply (IH _ _ _ (Dict.set (paper_name count (Py.strip line)) c d)) in E.
    + destruct E as (d' & Hh & Hd'). exists d'. split; [|exact Hd'].
      rewrite Hh. cbn [heap with_heap]. rewrite Hh2, Hh1. apply insert_twice.
    + cbn [heap with_heap]. apply lookup_insert_eq.
    + now apply entered_set.
Qed.

(** Whatever the user types, a collection that [get_paper_input] returns
    is a new dictionary with distinct names, none of them empty or 'done'
    in any spelling, and without a negative count; nothing else in the
    heap changes, and no file does. *)
Theorem get_paper_input_entered (w w' : world) (r : loc) :
  get_paper_input w = (inr r, w') ->
  heap w !! r = None
  /\ files w' = files w
  /\ exists d, heap w' = <[r := d]> (heap w) /\ entered d.
Proof.
  intros E. split; [|split].
  - unfold get_paper_input, bind at 1, alloc in E.
    assert (r = fresh (dom (heap w))) as ->.
    { unfold bind, print, ret in E.
      destruct (get_paper_input_loop _ _ _ _) as [[e|[]] w2]; [discriminate|].
      now injection E. }
    apply not_elem_of_dom, is_fresh.
  - exact (keeps_get_paper_input same_files _ _ _ E).
  - unfold get_paper_input, bind at 1, alloc in E.
    unfold bind at 1, print in E.
    apply bind_inv in E as [(e & _ & [=])|([] & w2 & Hloop & E)].
    injection E as <- <-.
    apply (get_paper_input_loop_entered _ _ _ _ _ []) in Hloop.
    + destruct Hloop as (d & Hh & Hd). exists d. split; [|exact Hd].
      rewrite Hh. cbn [heap with_heap with_stdout]. apply insert_twice.
    + cbn [heap with_heap with_stdout]. apply lookup_insert_eq.
    + split; [constructor | intros name c []].
Qed.

(** Two papers entered, the second without a name. *)
Lemma get_paper_input_entered_witness :
  exists w',
    get_paper_input (World ∅ [" A "; "12"; ""; "x"; "3"; "Done"; "y"] [] ∅ ∅)
      = (inr 1%positive, w')
    /\ heap w' = {[ 1%positive := [("A", 12); ("Paper 2", 3)] ]}.
Proof.
  pose (w := World ∅ [" A "; "12"; ""; "x"; "3"; "Done"; "y"] [] ∅ ∅).
  pose (res := get_paper_input w).
  assert (E : get_paper_input w = (inr 1%positive, snd res))
    by (vm_compute; reflexivity).
  destruct (get_paper_input_entered w (snd res) 1 E) as (_ & _ & d & Hh & _).
  exists (snd res). split; [exact E|]. vm_compute. reflexivity.
Defined.




(* ================================================================== *)
(** * The menus *)
(* ================================================================== *)

Lemma get_int_loop_reads (prompt : string) (min_val max_val : option Z)
    (fuel : nat) : forall (w w' : world) (val : Z),
  get_int_loop fuel prompt min_val max_val w = (inr val, w') ->
  (List.length (stdin w') < List.length (stdin w))%nat.
Proof.
  induction fuel as [|fuel IH]; intros w w' val E; [discriminate|].
  cbn [get_int_loop] in E. unfold bind at 1, input in E.
  destruct (stdin w) as [|line rest] eqn:Hin; [discriminate|].
  assert (Hloop : forall s,
            (print s ;; get_int_loop fuel prompt min_val max_val)
              (with_stdin rest (with_stdout (stdout w ++ [prompt]) w)) = (inr val, w') ->
            (List.length (stdin w') < S (List.length rest))%nat).
  { intros s E2. unfold bind, print in E2. apply IH in E2.
    cbn [stdin with_stdin with_stdout] in E2. lia. }
  cbn [List.length].
  destruct (Py.isdigit (Py.strip line)); [|now apply (Hloop _ E)].
  unfold bind at 1, lift in E. destruct (Py.int (Py.strip line)) as [e|v]; [discriminate|].
  destruct (_ || _); [now apply (Hloop _ E)|].
  injection E as _ <-. cbn [stdin with_stdin]. lia.
Qed.

Lemma get_int_reads (prompt : string) (min_val max_val : option Z)
    (w w' : world) (val : Z) :
  get_int prompt min_val max_val w = (inr val, w') ->
  (List.length (stdin w') < List.length (stdin w))%nat.
Proof. apply get_int_loop_reads. Qed.




Ltac keeps_step :=
  match goal with
  | |- keeps _ (if ?a =? ?b then _ else _) => destruct (Z.eqb_spec a b); [try lia|]
  | |- keeps _ (if ?b then _ else _) => destruct b
  | |- keeps _ (bind _ _) => refine (keeps_bind _ _ _ _ _); [|intros ?]
  | |- keeps _ (try_except _ _) => refine (keeps_try_except _ _ _ _ _); [|intros ?]
  | |- keeps _ (for_each _ _) => refine (keeps_for_each _ _ _ _); intros ?
  | |- keeps _ (ret _) => refine (keeps_ret _ _)
  | |- keeps _ (lift _) => refine (keeps_lift _ _)
  | |- keeps _ (print _) => refine (keeps_print _ _)
  | |- keeps _ (input _) => refine (keeps_input _ _)
  | |- keeps _ (deref _) => refine (keeps_deref _ _)
  | |- keeps _ (alloc _) => refine (keeps_alloc _ _)
  | |- keeps _ (store _ _) => refine (keeps_store _ _ _)
  | |- keeps _ (open_w _) => refine (keeps_open_w _ _)
  | |- keeps _ (write _ _) => refine (keeps_write _ _ _)
  | |- keeps _ (get_int _ _ _) => refine (keeps_get_int _ _ _ _)
  | |- keeps _ (get_yes_no _) => refine (keeps_get_yes_no _ _)
  | |- keeps _ (print_paper_list _ _) => refine (keeps_print_paper_list _ _ _)
  | |- keeps _ (get_sorted_papers _ _) => refine (keeps_get_sorted_papers _ _ _)
  | |- keeps _ (generate_summary_report _) => refine (keeps_generate_summary_report _ _)
  | |- keeps _ (save_papers_to_txt _ _) => refine (keeps_save_papers_to_txt _ _ _)
  | |- keeps _ (load_papers_from_txt _) => refine (keeps_load_papers_from_txt _ _)
  | |- keeps _ (edit_paper _) => refine (keeps_edit_paper _ _)
  end.

Section MenuFacts.
Context `{Runtime}.

Lemma keeps_statistics_case_input (choice : Z) (papers : loc) :
  keeps input_left (statistics_case choice papers).
Proof. unfold statistics_case. cbv zeta. repeat keeps_step. Qed.

Lemma keeps_statistics_case_files (choice : Z) (papers : loc) :
  choice <> 11 -> choice <> 12 -> choice <> 15 ->
  keeps same_files (statistics_case choice papers).
Proof. intros H11 H12 H15. unfold statistics_case. cbv zeta. repeat keeps_step. Qed.

Lemma keeps_statistics_case_object (choice : Z) (papers p : loc) :
  choice <> 13 -> choice <> 14 ->
  keeps (same_object p) (statistics_case choice papers).
Proof. intros H13 H14. unfold statistics_case. cbv zeta. repeat keeps_step. Qed.

(** [statistics_menu] never puts a line back into the input. *)
Lemma keeps_statistics_menu_loop (papers : loc) (fuel : nat) :
  keeps input_left (statistics_menu_loop fuel papers).
Proof.
  induction fuel as [|fuel IH]; cbn [statistics_menu_loop];
    [apply keeps_raise; exact _|].
  repeat keeps_step; first [exact IH | apply keeps_statistics_case_input].
Qed.

Lemma statistics_menu_loop_any (papers : loc) (fuel : nat) :
  forall (fuel' : nat) (w : world),
  (List.length (stdin w) < fuel)%nat -> (List.length (stdin w) < fuel')%nat ->
  statistics_menu_loop fuel papers w = statistics_menu_loop fuel' papers w.
Proof.
  induction fuel as [|fuel IH]; intros fuel' w Hf Hf'; [lia|].
  destruct fuel' as [|fuel']; [lia|]. cbn [statistics_menu_loop].
  apply bind_cong. intros [] w1 H1.
  pose proof (keeps_for_each input_left _ _ (keeps_print input_left) _ _ _ H1) as L1.
  apply bind_cong. intros choice w2 H2.
  pose proof (get_int_reads _ _ _ _ _ _ H2) as L2.
  apply bind_cong. intros left w3 H3.
  pose proof (keeps_statistics_case_input _ _ _ _ _ H3) as L3.
  unfold input_left in *.
  destruct left; [reflexivity|].
  destruct (negb (choice =? 17)); [|apply IH; lia].
  apply bind_cong. intros cont w4 H4.
  pose proof (keeps_get_yes_no input_left _ _ _ _ H4) as L4. unfold input_left in L4.
  destruct (String.eqb cont "n"); [reflexivity|]. apply IH; lia.
Qed.

(** Every turn of the loop of [statistics_menu] reads at least one line
    and none is ever put back, so the menu comes to an end on every
    input, after at most as many turns as there are lines: a bound on the
    turns above the number of lines gives what every other such bound
    gives. *)
Theorem statistics_menu_ends (papers : loc) (fuel : nat) (w : world) :
  (List.length (stdin w) < fuel)%nat ->
  statistics_menu_loop fuel papers w = statistics_menu papers w.
Proof.
  intros Hf. unfold statistics_menu. apply statistics_menu_loop_any; [exact Hf | lia].
Qed.




(** Apart from the choices 13 (edit) and 14 (load), no choice of the
    menu changes the collection or any other dictionary that exists;
    apart from the choices 11, 12 and 15 (the exports and save), none
    changes a file; and none puts a line back into the input. *)
Theorem statistics_case_leaves (choice : Z) (papers : loc) (w w' : world)
    (r : Py.exn + bool) :
  statistics_case choice papers w = (r, w') ->
  (choice <> 13 -> choice <> 14 ->
   forall p d, heap w !! p = Some d -> heap w' !! p = Some d)
  /\ (choice <> 11 -> choice <> 12 -> choice <> 15 -> files w' = files w)
  /\ (List.length (stdin w') <= List.length (stdin w))%nat.
Proof.
  intros E. split; [|split].
  - intros H13 H14 p. exact (keeps_statistics_case_object choice papers p H13 H14 _ _ _ E).
  - intros H11 H12 H15. exact (keeps_statistics_case_files choice papers H11 H12 H15 _ _ _ E).
  - exact (keeps_statistics_case_input choice papers _ _ _ E).
Qed.


End MenuFacts.

(** A turn of the menu with a bound of five turns, and with the bound of
    the model. *)
Lemma statistics_menu_ends_witness :
  statistics_menu_loop (H := fixed_runtime) 5 1 (world_of two_papers ["6"; "n"])
  = statistics_menu (H := fixed_runtime) 1 (world_of two_papers ["6"; "n"]).
Proof.
  apply (statistics_menu_ends (H := fixed_runtime) 1 5 (world_of two_papers ["6"; "n"])).
  cbn. lia.
Defined.


(** How the menu gets there: the only paper is deleted with the choice
    13, and the choice 1 of the next turn ends the program. *)
Example menu_delete_then_max :
  fst (statistics_menu (H := fixed_runtime) 1
         (world_of [("A", 1)] ["13"; "A"; "delete"; "y"; "1"]))
  = inl (Py.ValueError "max").
Proof. vm_compute. reflexivity. Qed.

(** The choice 6 at a concrete input. *)
Lemma statistics_case_leaves_witness :
  exists w',
    statistics_case (H := fixed_runtime) 6 1 (world_of two_papers ["n"]) = (inr false, w')
    /\ heap w' !! 1%positive = Some two_papers /\ files w' = ∅.
Proof.
  pose (res := statistics_case (H := fixed_runtime) 6 1 (world_of two_papers ["n"])).
  assert (E : statistics_case (H := fixed_runtime) 6 1 (world_of two_papers ["n"])
              = (inr false, snd res)) by (vm_compute; reflexivity).
  destruct (statistics_case_leaves (H := fixed_runtime) 6 1 _ _ _ E) as (Hh & Hf & _).
  exists (snd res). split; [exact E|]. split.
  - apply Hh; [lia | lia | reflexivity].
  - apply Hf; lia.
Defined.


(** [index_menu] changes neither the heap nor the files, however it
    ends; on an empty collection it reads nothing and writes the totals
    and one more line. *)
Theorem index_menu_reads_only (papers : loc) (w w' : world) (r : Py.exn + unit) :
  index_menu papers w = (r, w') ->
  heap w' = heap w /\ files w' = files w
  /\ (heap w !! papers = Some [] ->
      r = inr tt /\ stdin w' = stdin w
      /\ stdout w' = stdout w
           ++ [ Py.repeat "=" 60 +:+ Py.nl;
                ("Total Papers: 0 | Total Citations: 0" +:+ Py.nl) +:+ Py.nl;
                ("No papers entered." +:+ Py.nl) +:+ Py.nl ]).
Proof.
  intros E. split; [|split].
  - exact (keeps_index_menu same_heap papers _ _ _ E).
  - exact (keeps_index_menu same_files papers _ _ _ E).
  - intros Hd. unfold index_menu, print_divider in E.
    unfold bind at 1, print at 1 in E.
    erewrite bind_run in E by (apply deref_run; exact Hd).
    unfold bind, print in E. cbn [Dict.is_empty] in E.
    injection E as <- <-. cbn [stdin stdout with_stdout].
    split; [reflexivity|]. split; [reflexivity|].
    rewrite <- !app_assoc. reflexivity.
Qed.

(** The index menu of the two papers of the examples, choice 3. *)
Lemma index_menu_reads_only_witness :
  exists w',
    index_menu 1 (world_of two_papers ["3"]) = (inr tt, w')
    /\ heap w' = heap (world_of two_papers ["3"]) /\ files w' = ∅.
Proof.
  pose (res := index_menu 1 (world_of two_papers ["3"])).
  assert (E : index_menu 1 (world_of two_papers ["3"]) = (inr tt, snd res))
    by (vm_compute; reflexivity).
  destruct (index_menu_reads_only 1 _ _ _ E) as (Hh & Hf & _).
  exists (snd res). split; [exact E|]. split; [exact Hh | exact Hf].
Defined.

Section ProgramFacts.
Context `{Runtime}.

(** When the first line typed is 'done', in any spelling and with white
    space around it, [RI_v2] makes an empty collection, says that no
    papers were entered and returns: neither menu is shown, nothing more
    is read and no file changes. *)
Theorem RI_v2_no_papers (w : world) (done : string) (rest : list string) :
  stdin w = done :: rest ->
  Py.lower (Py.strip done) = "done" ->
  RI_v2 w
  = (inr tt,
     with_heap (<[fresh (dom (heap w)) := []]> (heap w))
       (with_stdin rest
          (with_stdout
             (stdout w
              ++ [ Py.repeat "=" 60 +:+ Py.nl;
                   Py.center 60 "RESEARCH INDEX & STATS PROGRAM - VERSION 2" +:+ Py.nl;
                   Py.repeat "=" 60 +:+ Py.nl;
                   (Py.nl +:+ "Enter paper names and citations. Type 'done' when finished."
                    +:+ Py.nl) +:+ Py.nl;
                   "Paper name [" +:+ Py.str 1 +:+ "]: ";
                   (Py.nl +:+ "No papers entered. Exiting program." +:+ Py.nl)
                   +:+ Py.nl ]) w))).
Proof.
  intros Hin Hdone. unfold RI_v2, print_divider.
  do 3 (unfold bind at 1, print at 1).
  set (w1 := with_stdout _ (with_stdout _ (with_stdout _ w))).
  assert (Hget : get_paper_input w1
                 = (inr (fresh (dom (heap w))),
                    with_stdin rest
                      (with_stdout
                         (stdout w1
                          ++ [ (Py.nl +:+ "Enter paper names and citations. Type 'done' when finished."
                                +:+ Py.nl) +:+ Py.nl;
                               "Paper name [" +:+ Py.str 1 +:+ "]: " ])
                         (with_heap (<[fresh (dom (heap w)) := []]> (heap w)) w1)))).
  { unfold get_paper_input. unfold bind at 1, alloc. unfold bind at 1, print.
    set (w2 := with_stdout _ _).
    assert (Hin2 : stdin w2 = done :: rest) by exact Hin.
    unfold bind at 1. rewrite Hin2. cbn [List.length get_paper_input_loop].
    rewrite (bind_run _ _ _ _ _ (input_run _ done rest w2 Hin2)).
    cbv zeta. rewrite Hdone. cbn [String.eqb Ascii.eqb Bool.eqb].
    unfold ret. cbn [stdout w2 with_stdout]. rewrite <- app_assoc. reflexivity. }
  rewrite (bind_run _ _ _ _ _ Hget).
  erewrite bind_run
    by (apply deref_run; cbn [heap with_heap with_stdout with_stdin]; apply lookup_insert_eq).
  cbn [Dict.is_empty]. unfold print.
  cbn [stdin stdout heap files readonly with_stdout with_heap with_stdin w1].
  unfold with_heap, with_stdin, with_stdout.
  cbn [stdin stdout heap files readonly].
  rewrite <- !app_assoc. reflexivity.
Qed.

End ProgramFacts.

(** The program started and left at once. *)
Lemma RI_v2_no_papers_witness :
  exists w',
    RI_v2 (H := fixed_runtime) (World ∅ [" Done "; "1"] [] ∅ ∅) = (inr tt, w')
    /\ stdin w' = ["1"] /\ heap w' = {[ 1%positive := [] ]}.
Proof.
  eexists. split.
  - apply (RI_v2_no_papers (H := fixed_runtime) (World ∅ [" Done "; "1"] [] ∅ ∅)
             " Done " ["1"]); reflexivity.
  - split; reflexivity.
Defined.

(* ================================================================== *)
(** * Saving and loading from the menu; the width of the table *)
(* ================================================================== *)




Section MenuFiles.
Context `{Runtime}.


End MenuFiles.


(** ** The width of the table *)

Lemma slen_app (a b : string) : Py.slen (a +:+ b) = Py.slen a + Py.slen b.
Proof.
  unfold Py.slen. induction a as [|c a IH]; cbn [String.append String.length];
    [reflexivity | lia].
Qed.

Lemma slen_repeat (n : Z) : Py.slen (Py.repeat " " n) = Z.max 0 n.
Proof.
  unfold Py.repeat. destruct (Z.le_gt_cases 0 n) as [Hn|Hn].
  - rewrite <- (Z2Nat.id n Hn) at 2. rewrite Z.max_r by lia.
    induction (Z.to_nat n) as [|k IH]; [reflexivity|].
    change (Nat.iter (S k) (String.append " ") EmptyString)
      with (" " +:+ Nat.iter k (String.append " ") EmptyString).
    rewrite slen_app, IH. change (Py.slen " ") with 1. lia.
  - rewrite Z.max_l by lia. destruct n; try lia. reflexivity.
Qed.

Lemma slen_ljust (w : Z) (s : string) : Py.slen (Py.ljust w s) = Z.max w (Py.slen s).
Proof.
  unfold Py.ljust. rewrite slen_app, slen_repeat.
  unfold Py.slen. lia.
Qed.

Lemma slen_rjust (w : Z) (s : string) : Py.slen (Py.rjust w s) = Z.max w (Py.slen s).
Proof.
  unfold Py.rjust. rewrite slen_app, slen_repeat.
  unfold Py.slen. lia.
Qed.

(** A row of the table is as wide as its three fields and the two blanks
    between them: 52 characters, the width of the header, when the number
    has at most 5 characters, the name at most 35 and the count at most
    10, and wider otherwise.  No name is ever cut. *)
Theorem table_row_width (i cit : Z) (name : string) :
  Py.slen (table_row i name cit)
  = Z.max 5 (Py.slen (Py.str i)) + Z.max 35 (Py.slen name)
    + Z.max 10 (Py.slen (Py.str cit)) + 2
  /\ Py.slen table_header = 52
  /\ 52 <= Py.slen (table_row i name cit).
Proof.
  assert (E : Py.slen (table_row i name cit)
              = Z.max 5 (Py.slen (Py.str i)) + Z.max 35 (Py.slen name)
                + Z.max 10 (Py.slen (Py.str cit)) + 2).
  { unfold table_row. rewrite !slen_app, !slen_ljust, slen_rjust.
    change (Py.slen " ") with 1. lia. }
  split; [exact E|]. split; [reflexivity|]. rewrite E. lia.
Qed.
